(** * cloudpipeline: the Coursera ETL function ([main.py])

    A shallow embedding of [main(request)]: the transform stage that flattens
    the GraphQL answer into rows, the CSV serialisation of those rows, and the
    sequence of calls to the outside services (HTTP, local files, Cloud
    Storage, BigQuery) wrapped in the function's single exception handler.

    Python values that come out of [response.json()] are modelled by [json];
    a Python exception is a value of [pyerr] and fallible code returns
    [result].  Calls to the outside world are the nodes of a finite call tree
    ([prog]); a run of the tree against a handler threads the world state and
    records the calls that were made. *)

From Stdlib Require Import ZArith Ascii DecimalString.
From stdpp Require Import base option list strings gmap fin_maps.

Set Warnings "-register-all".
Local Open Scope string_scope.
Local Open Scope list_scope.

(** ** Python values *)

(** What [json.loads] builds: [None], [bool], [int], [str], [list], [dict].
    Numbers are the integers (the only numeric field of the query,
    [courseCount], is an [INTEGER] of the schema).  A [JObj] keeps its items
    in insertion order, as a Python dict does; [dict_get] reads the first
    binding of a key.  A [str] is a Rocq string, one [ascii] per character. *)
Inductive json : Type :=
| JNull
| JBool (b : bool)
| JNum (n : Z)
| JStr (s : string)
| JArr (items : list json)
| JObj (members : list (string * json)).

Definition pydict : Type := list (string * json).

(** The exceptions the function can meet.  The last four are the ones the
    client libraries raise: [NotFound] and [Conflict] are
    [google.api_core.exceptions]' 404 and 409, [Forbidden] the 403, and
    [OtherError] stands for any other failure of a call. *)
Inductive pyerr : Type :=
| KeyError (key : json)
| TypeError
| AttributeError
| IndexError
| ValueError
| ApiRequestFailed (status_code : Z)
| BigQueryInsertErrors (errors : list json)
| NotFound
| Conflict
| Forbidden
| OtherError (msg : string).

Definition result (A : Type) : Type := (pyerr + A)%type.

Definition raise {A} (e : pyerr) : result A := inl e.

Definition bindR {A B} (m : result A) (k : A -> result B) : result B :=
  match m with
  | inl e => inl e
  | inr a => k a
  end.

Notation "'let*' x ':=' m 'in' k" := (bindR m (fun x => k))
  (at level 10, x name, m at level 100, k at level 200).

Fixpoint mapR {A B} (f : A -> result B) (l : list A) : result (list B) :=
  match l with
  | [] => inr []
  | x :: l' => let* y := f x in let* ys := mapR f l' in inr (y :: ys)
  end.

(** ** The Python operations the transform uses *)

Fixpoint dict_get (d : pydict) (key : string) : option json :=
  match d with
  | [] => None
  | (k, v) :: d' => if String.eqb k key then Some v else dict_get d' key
  end.

(** [obj[key]] for a string key: only a dict can be subscripted by a string. *)
Definition subscript (obj : json) (key : string) : result json :=
  match obj with
  | JObj d =>
      match dict_get d key with
      | Some v => inr v
      | None => raise (KeyError (JStr key))
      end
  | _ => raise TypeError
  end.

(** [obj[0]]: the first item of a list, the first character of a string; a
    dict decoded from JSON has no integer key. *)
Definition subscript0 (obj : json) : result json :=
  match obj with
  | JArr (x :: _) => inr x
  | JArr [] => raise IndexError
  | JStr (String c _) => inr (JStr (String c EmptyString))
  | JStr EmptyString => raise IndexError
  | JObj _ => raise (KeyError (JNum 0))
  | _ => raise TypeError
  end.

Fixpoint chars (s : string) : list json :=
  match s with
  | EmptyString => []
  | String c s' => JStr (String c EmptyString) :: chars s'
  end.

(** What [for x in obj] and [sep.join(obj)] iterate over: the items of a
    list, the characters of a string, the keys of a dict. *)
Definition py_iter (obj : json) : result (list json) :=
  match obj with
  | JArr l => inr l
  | JStr s => inr (chars s)
  | JObj d => inr (map (fun kv => JStr (fst kv)) d)
  | _ => raise TypeError
  end.

(** [obj.get(key, default)]: only a dict has the method. *)
Definition py_get (obj : json) (key : string) (default : json) : result json :=
  match obj with
  | JObj d =>
      match dict_get d key with
      | Some v => inr v
      | None => inr default
      end
  | _ => raise AttributeError
  end.

Fixpoint join (sep : string) (l : list string) : string :=
  match l with
  | [] => EmptyString
  | [x] => x
  | x :: l' => x +:+ sep +:+ join sep l'
  end.

Definition as_str (v : json) : result string :=
  match v with
  | JStr s => inr s
  | _ => raise TypeError
  end.

(** [sep.join(items)]: every item has to be a [str]. *)
Definition str_join (sep : string) (items : list json) : result string :=
  let* strs := mapR as_str items in inr (join sep strs).

(** ** Step 3 of [main]: the transform *)

(** The body of the inner loop, up to the row it appends.  The partners are
    read first, then the dict display is evaluated entry by entry. *)
Definition make_row (collection_label collection_id entity : json) : result pydict :=
  let* entity_partners := subscript entity "partners" in
  let* partner_list := py_iter entity_partners in
  let* names := mapR (fun partner => subscript partner "name") partner_list in
  let* partners := str_join ", " names in
  let* entity_partner_ids := subscript entity "partnerIds" in
  let* ids := py_iter entity_partner_ids in
  let* partner_ids := str_join ", " ids in
  let* course_name := subscript entity "name" in
  let* course_id := subscript entity "id" in
  let* slug := subscript entity "slug" in
  let* url := subscript entity "url" in
  let* image_url := subscript entity "imageUrl" in
  let* difficulty_level := py_get entity "difficultyLevel" JNull in
  let* is_part_of_coursera_plus := py_get entity "isPartOfCourseraPlus" JNull in
  let* course_count := py_get entity "courseCount" JNull in
  let* is_cost_free := py_get entity "isCostFree" JNull in
  let* product_card := py_get entity "productCard" (JObj []) in
  let* marketing_product_type := py_get product_card "marketingProductType" JNull in
  let* product_card' := py_get entity "productCard" (JObj []) in
  let* attributes := py_get product_card' "productTypeAttributes" (JObj []) in
  let* is_pathway_content := py_get attributes "isPathwayContent" JNull in
  inr [ ("collection_label", collection_label);
        ("collection_id", collection_id);
        ("course_name", course_name);
        ("course_id", course_id);
        ("slug", slug);
        ("url", url);
        ("image_url", image_url);
        ("partners", JStr partners);
        ("partner_ids", JStr partner_ids);
        ("difficulty_level", difficulty_level);
        ("is_part_of_coursera_plus", is_part_of_coursera_plus);
        ("course_count", course_count);
        ("is_cost_free", is_cost_free);
        ("marketing_product_type", marketing_product_type);
        ("is_pathway_content", is_pathway_content) ].

(** [for entity in collection["entities"]: ... transformed_data.append(row)] *)
Fixpoint loop_entities (collection_label collection_id : json) (entities : list json)
    (transformed_data : list pydict) : result (list pydict) :=
  match entities with
  | [] => inr transformed_data
  | entity :: rest =>
      let* row := make_row collection_label collection_id entity in
      loop_entities collection_label collection_id rest (transformed_data ++ [row])
  end.

(** [for collection in collections: ...] *)
Fixpoint loop_collections (collections : list json) (transformed_data : list pydict)
    : result (list pydict) :=
  match collections with
  | [] => inr transformed_data
  | collection :: rest =>
      let* collection_label := subscript collection "label" in
      let* collection_id := subscript collection "id" in
      let* collection_entities := subscript collection "entities" in
      let* entities := py_iter collection_entities in
      let* transformed_data' :=
        loop_entities collection_label collection_id entities transformed_data in
      loop_collections rest transformed_data'
  end.

(** [collections = data[0]["data"]["DiscoveryCollections"]["queryCollections"]] *)
Definition query_collections (data : json) : result json :=
  let* first := subscript0 data in
  let* d := subscript first "data" in
  let* dc := subscript d "DiscoveryCollections" in
  subscript dc "queryCollections".

(** The transform stage, from the decoded answer to [transformed_data]. *)
Definition transform (data : json) : result (list pydict) :=
  let* collections := query_collections data in
  let* collection_list := py_iter collections in
  loop_collections collection_list [].

(** ** The table schema and the CSV header *)

Inductive bq_type : Type := STRING | BOOLEAN | INTEGER.

Record SchemaField : Type := mkSchemaField
  { name : string; field_type : bq_type; mode : string }.

Definition SCHEMA : list SchemaField :=
  [ mkSchemaField "collection_label" STRING "NULLABLE";
    mkSchemaField "collection_id" STRING "NULLABLE";
    mkSchemaField "course_name" STRING "NULLABLE";
    mkSchemaField "course_id" STRING "NULLABLE";
    mkSchemaField "slug" STRING "NULLABLE";
    mkSchemaField "url" STRING "NULLABLE";
    mkSchemaField "image_url" STRING "NULLABLE";
    mkSchemaField "partners" STRING "NULLABLE";
    mkSchemaField "partner_ids" STRING "NULLABLE";
    mkSchemaField "difficulty_level" STRING "NULLABLE";
    mkSchemaField "is_part_of_coursera_plus" BOOLEAN "NULLABLE";
    mkSchemaField "course_count" INTEGER "NULLABLE";
    mkSchemaField "is_cost_free" BOOLEAN "NULLABLE";
    mkSchemaField "marketing_product_type" STRING "NULLABLE";
    mkSchemaField "is_pathway_content" BOOLEAN "NULLABLE" ].

Definition CSV_HEADERS : list string := map name SCHEMA.

(** ** Step 4 of [main]: the CSV file

    [csv.DictWriter(csv_file, fieldnames=CSV_HEADERS)] with the default
    dialect: the comma as delimiter, the double quote as quote character,
    minimal quoting with doubled quotes, CR LF as line terminator. *)

Definition delimiter : ascii := ","%char.
Definition quotechar : ascii := "034"%char.
Definition CR : ascii := "013"%char.
Definition LF : ascii := "010"%char.
Definition lineterminator : string := String CR (String LF EmptyString).

Definition special (c : ascii) : bool :=
  Ascii.eqb c delimiter || Ascii.eqb c quotechar || Ascii.eqb c CR || Ascii.eqb c LF.

Fixpoint needs_quoting (s : string) : bool :=
  match s with
  | EmptyString => false
  | String c s' => special c || needs_quoting s'
  end.

Fixpoint double_quotes (s : string) : string :=
  match s with
  | EmptyString => EmptyString
  | String c s' =>
      if Ascii.eqb c quotechar
      then String quotechar (String quotechar (double_quotes s'))
      else String c (double_quotes s')
  end.

Definition quoted (s : string) : string :=
  String quotechar (double_quotes s +:+ String quotechar EmptyString).

Definition csv_field (s : string) : string :=
  if needs_quoting s then quoted s else s.

(** One line of the file.  A record made of a single empty field is written
    as a quoted empty field. *)
Definition csv_record (fields : list string) : string :=
  match fields with
  | [EmptyString] => quoted EmptyString
  | _ => join (String delimiter EmptyString) (map csv_field fields)
  end +:+ lineterminator.

Section Csv.

(** Python's [str] of a list or of a dict (their [repr]), which the writer
    applies to a field that is neither [None] nor a string. *)
Variable py_str_container : json -> string.

Definition py_str (v : json) : string :=
  match v with
  | JNull => "None"
  | JBool true => "True"
  | JBool false => "False"
  | JNum n => NilZero.string_of_int (Z.to_int n)
  | JStr s => s
  | JArr _ | JObj _ => py_str_container v
  end.

(** The text the writer puts in a cell: nothing for [None], a string as it
    is, [str(value)] otherwise. *)
Definition cell (v : json) : string :=
  match v with
  | JNull => EmptyString
  | JStr s => s
  | _ => py_str v
  end.

(** [DictWriter._dict_to_list]: a key outside [fieldnames] is refused, a
    missing one reads as the empty string. *)
Definition dict_to_list (fieldnames : list string) (rowdict : pydict)
    : result (list json) :=
  if forallb (fun kv => bool_decide (fst kv ∈ fieldnames)) rowdict
  then inr (map (fun key => default (JStr EmptyString) (dict_get rowdict key)) fieldnames)
  else raise ValueError.

Definition writerow (row : list json) : string := csv_record (map cell row).

Definition writeheader (fieldnames : list string) : string := csv_record fieldnames.

Fixpoint concat_lines (lines : list string) : string :=
  match lines with
  | [] => EmptyString
  | l :: ls => l +:+ concat_lines ls
  end.

Definition writerows (fieldnames : list string) (rowdicts : list pydict) : result string :=
  let* rows := mapR (dict_to_list fieldnames) rowdicts in
  inr (concat_lines (map writerow rows)).

(** The text of [/tmp/coursera_courses.csv]. *)
Definition csv_file (transformed_data : list pydict) : result string :=
  let* body := writerows CSV_HEADERS transformed_data in
  inr (writeheader CSV_HEADERS +:+ body).

(** The cells of a row, in the order of the header. *)
Definition cells (row : pydict) : list string :=
  map (fun key => cell (default (JStr EmptyString) (dict_get row key)))
      CSV_HEADERS.

End Csv.

(** ** Reading the CSV file back *)















(** ** The calls to the outside world *)

Record config : Type := mkConfig
  { GCS_BUCKET_NAME : string; BQ_DATASET_ID : string; BQ_TABLE_ID : string }.

(** The values used when the environment sets none. *)
Definition default_config : config :=
  mkConfig "gcstestbuckethb" "coursera_data" "courses".

Definition URL : string :=
  "https://www.coursera.org/graphql-gateway?opname=DiscoveryCollections".

(** What [requests.post] returns, as far as [main] looks at it:
    [response.status_code] and the outcome of [response.json()]. *)
Record response : Type := mkResponse
  { status_code : Z; response_json : result json }.

(** What is written to a local file: [json.dump(data, f)], or the CSV text. *)
Inductive file_content : Type :=
| JsonDump (data : json)
| CsvText (text : string).

Inductive call : Type :=
| requests_post (url : string)
| write_file (path : string) (content : file_content)
| upload_to_gcs (bucket_name source_file_name destination_blob_name : string)
| bigquery_Client
| get_dataset (dataset_id : string)
| create_dataset (dataset_id : string)
| delete_table (dataset_id table_id : string)
| create_table (dataset_id table_id : string) (schema : list SchemaField)
| insert_rows_json (dataset_id table_id : string) (json_rows : list pydict).

Definition answer (c : call) : Type :=
  match c with
  | requests_post _ => response
  | insert_rows_json _ _ _ => list json
  | _ => unit
  end.

(** A program is the tree of its calls: each call hands its outcome, a
    value or an exception, to the rest of the program. *)
Inductive prog (A : Type) : Type :=
| Ret (a : A)
| Call (c : call) (k : result (answer c) -> prog A).

Arguments Ret {A} a.
Arguments Call {A} c k.

Fixpoint bindP {A B} (p : prog A) (f : A -> prog B) : prog B :=
  match p with
  | Ret a => f a
  | Call c k => Call c (fun r => bindP (k r) f)
  end.

(** Programs that may raise. *)
Definition M (A : Type) : Type := prog (result A).

Definition retM {A} (a : A) : M A := Ret (inr a).
Definition raiseM {A} (e : pyerr) : M A := Ret (inl e).
Definition liftM {A} (r : result A) : M A := Ret r.
Definition callM (c : call) : M (answer c) := Call c Ret.

Definition bindM {A B} (m : M A) (f : A -> M B) : M B :=
  bindP m (fun r => match r with inl e => Ret (inl e) | inr a => f a end).

(** [try: m  except: handler] (the bare [except] catches everything). *)
Definition try_except {A} (m : M A) (handler : pyerr -> M A) : M A :=
  bindP m (fun r => match r with inl e => handler e | inr a => Ret (inr a) end).

Notation "'let!' x ':=' m 'in' k" := (bindM m (fun x => k))
  (at level 10, x name, m at level 100, k at level 200).

(** ** [main] *)

Section Main.

Variable py_str_container : json -> string.

(** The body of the [try] block of [main], step by step.  [print] is left
    out.  The CSV text is computed before the file is written; for the rows
    of the transform the writer cannot fail (see [csv_file_transform]). *)
Definition pipeline (cfg : config) : M unit :=
  (* 1. Extract data from GraphQL API *)
  let! response := callM (requests_post URL) in
  let! _ := (if negb (status_code response =? 200)%Z
             then raiseM (ApiRequestFailed (status_code response))
             else retM tt) in
  let! data := liftM (response_json response) in
  (* 2. Save raw JSON to GCS *)
  let json_file_path := "/tmp/coursera_response.json" in
  let! _ := callM (write_file json_file_path (JsonDump data)) in
  let! _ := callM (upload_to_gcs (GCS_BUCKET_NAME cfg) json_file_path
                     "coursera_response.json") in
  (* 3. Transform data *)
  let! transformed_data := liftM (transform data) in
  (* 4. Save transformed data to CSV and upload to GCS *)
  let csv_file_path := "/tmp/coursera_courses.csv" in
  let! text := liftM (csv_file py_str_container transformed_data) in
  let! _ := callM (write_file csv_file_path (CsvText text)) in
  let! _ := callM (upload_to_gcs (GCS_BUCKET_NAME cfg) csv_file_path
                     "coursera_courses.csv") in
  (* 5. Load transformed data into BigQuery *)
  let! _ := callM bigquery_Client in
  (* Create dataset if it doesn't exist *)
  let! _ := try_except (callM (get_dataset (BQ_DATASET_ID cfg)))
              (fun _ => callM (create_dataset (BQ_DATASET_ID cfg))) in
  (* Delete and recreate table for a fresh load *)
  let! _ := try_except (callM (delete_table (BQ_DATASET_ID cfg) (BQ_TABLE_ID cfg)))
              (fun _ => retM tt) in
  let! _ := callM (create_table (BQ_DATASET_ID cfg) (BQ_TABLE_ID cfg) SCHEMA) in
  let! errors := callM (insert_rows_json (BQ_DATASET_ID cfg) (BQ_TABLE_ID cfg)
                          transformed_data) in
  match errors with
  | [] => retM tt
  | _ :: _ => raiseM (BigQueryInsertErrors errors)
  end.

(** What [main] returns: the JSON body and the HTTP status (the headers are
    the same in both cases). *)
Inductive response_body : Type :=
| status_success
| status_error (message : pyerr).

Definition http_response : Type := (response_body * Z)%type.

(** [try: ... return success, 200  except Exception as e: return error, 500] *)
Definition main (cfg : config) : prog http_response :=
  bindP (pipeline cfg) (fun r =>
    match r with
    | inr _ => Ret (status_success, 200%Z)
    | inl e => Ret (status_error e, 500%Z)
    end).

End Main.

(** ** Running a program *)

(** A handler answers each call in a world of type [W]: it returns the next
    world and what the call returned or raised. *)
Definition handler (W : Type) : Type := forall c : call, W -> W * result (answer c).

(** What a call did, as the log of a run keeps it. *)
Inductive outcome : Type :=
| Raised (e : pyerr)
| Returned
| ReturnedResponse (r : response)
| ReturnedErrors (errors : list json).

Definition outcome_of (c : call) : result (answer c) -> outcome :=
  match c with
  | requests_post _ =>
      fun r => match r with inl e => Raised e | inr x => ReturnedResponse x end
  | insert_rows_json _ _ _ =>
      fun r => match r with inl e => Raised e | inr x => ReturnedErrors x end
  | _ => fun r => match r with inl e => Raised e | inr _ => Returned end
  end.

Record run_result (W A : Type) : Type := mkRun
  { final : W; calls : list (call * outcome); returned : A }.

Arguments mkRun {W A} final calls returned.
Arguments final {W A} r.
Arguments calls {W A} r.
Arguments returned {W A} r.

Fixpoint run {W A} (h : handler W) (p : prog A) (w : W) : run_result W A :=
  match p with
  | Ret a => mkRun w [] a
  | Call c k =>
      let wr := h c w in
      let rest := run h (k (snd wr)) (fst wr) in
      mkRun (final rest) ((c, outcome_of c (snd wr)) :: calls rest) (returned rest)
  end.

(** A handler that makes some calls fail, whatever the world. *)
Definition with_faults {W} (fault : call -> option pyerr) (h : handler W) : handler W :=
  fun c w =>
    match fault c with
    | Some e => (w, inl e)
    | None => h c w
    end.

(** ** The services when nothing goes wrong

    The local files, the bucket and BigQuery as their documentation
    describes them: [get_dataset] and [delete_table] raise [NotFound] for
    what is not there, [create_dataset] and [create_table] raise [Conflict]
    for what is, [insert_rows_json] appends the rows and returns no error, or
    returns the errors of the rows the service refuses and inserts nothing.
    (Which rows of a refused batch a service keeps is not fixed by the call;
    inserting none of them is the choice of this model, and only what is
    said of the table after a refused insert depends on it.) *)

Record table : Type := mkTable
  { table_schema : list SchemaField; table_rows : list pydict }.

Record world : Type := mkWorld
  { files : gmap string file_content;
    blobs : gmap (string * string) file_content;
    datasets : gmap string (gmap string table) }.

Section Services.

(** The answer of the API, and the check BigQuery makes of a row against the
    schema of the table (the error it reports for the row, if any). *)
Variable upstream : response.
Variable row_error : list SchemaField -> pydict -> option json.

Definition set_tables (w : world) (dataset_id : string) (tables : gmap string table) : world :=
  mkWorld (files w) (blobs w) (<[dataset_id := tables]> (datasets w)).

Definition services : handler world :=
  fun c w =>
    match c return world * result (answer c) with
    | requests_post _ => (w, inr upstream)
    | write_file path content =>
        (mkWorld (<[path := content]> (files w)) (blobs w) (datasets w), inr tt)
    | upload_to_gcs bucket_name source_file_name destination_blob_name =>
        match files w !! source_file_name with
        | Some content =>
            (mkWorld (files w)
               (<[(bucket_name, destination_blob_name) := content]> (blobs w))
               (datasets w), inr tt)
        | None => (w, inl (OtherError "FileNotFoundError"))
        end
    | bigquery_Client => (w, inr tt)
    | get_dataset dataset_id =>
        match datasets w !! dataset_id with
        | Some _ => (w, inr tt)
        | None => (w, inl NotFound)
        end
    | create_dataset dataset_id =>
        match datasets w !! dataset_id with
        | Some _ => (w, inl Conflict)
        | None => (set_tables w dataset_id ∅, inr tt)
        end
    | delete_table dataset_id table_id =>
        match datasets w !! dataset_id with
        | Some tables =>
            match tables !! table_id with
            | Some _ => (set_tables w dataset_id (delete table_id tables), inr tt)
            | None => (w, inl NotFound)
            end
        | None => (w, inl NotFound)
        end
    | create_table dataset_id table_id schema =>
        match datasets w !! dataset_id with
        | Some tables =>
            match tables !! table_id with
            | Some _ => (w, inl Conflict)
            | None =>
                (set_tables w dataset_id (<[table_id := mkTable schema []]> tables), inr tt)
            end
        | None => (w, inl NotFound)
        end
    | insert_rows_json dataset_id table_id json_rows =>
        match datasets w !! dataset_id with
        | Some tables =>
            match tables !! table_id with
            | Some t =>
                match omap (row_error (table_schema t)) json_rows with
                | [] =>
                    (set_tables w dataset_id
                       (<[table_id := mkTable (table_schema t) (table_rows t ++ json_rows)]>
                          tables), inr [])
                | errors => (w, inr errors)
                end
            | None => (w, inl NotFound)
            end
        | None => (w, inl NotFound)
        end
    end.

End Services.

(** ** Documents that follow the data model

    The shape the GraphQL query asks for: an [Entity] is an object with the
    keys [id], [slug], [name], [url], [imageUrl], a list [partnerIds] of
    strings and a list [partners] of objects with a string [name]; its
    [productCard], when there is one, is an object whose
    [productTypeAttributes], when there is one, is an object. *)

Definition has_key (d : pydict) (key : string) : bool :=
  match dict_get d key with
  | Some _ => true
  | None => false
  end.

Definition is_str (v : json) : bool :=
  match v with
  | JStr _ => true
  | _ => false
  end.

Definition valid_partner (p : json) : bool :=
  match p with
  | JObj d =>
      match dict_get d "name" with
      | Some (JStr _) => true
      | _ => false
      end
  | _ => false
  end.

(** [partners], if the key is there, is a list of partner objects. *)
Definition well_typed_partners (d : pydict) : bool :=
  match dict_get d "partners" with
  | None => true
  | Some (JArr ps) => forallb valid_partner ps
  | Some _ => false
  end.

(** [partnerIds], if the key is there, is a list of strings. *)
Definition well_typed_partner_ids (d : pydict) : bool :=
  match dict_get d "partnerIds" with
  | None => true
  | Some (JArr ids) => forallb is_str ids
  | Some _ => false
  end.

Definition well_typed_product_card (d : pydict) : bool :=
  match dict_get d "productCard" with
  | None => true
  | Some (JObj pc) =>
      match dict_get pc "productTypeAttributes" with
      | None | Some (JObj _) => true
      | Some _ => false
      end
  | Some _ => false
  end.

(** The keys the spec lists as required. *)
Definition required_keys : list string :=
  ["id"; "name"; "slug"; "url"; "imageUrl"; "partnerIds"].

Definition valid_required (d : pydict) : bool :=
  forallb (has_key d) ("partners" :: required_keys)
  && well_typed_partners d && well_typed_partner_ids d.

Definition valid_entity (e : json) : bool :=
  match e with
  | JObj d => valid_required d && well_typed_product_card d
  | _ => false
  end.

Definition valid_collection (c : json) : bool :=
  match c with
  | JObj d =>
      has_key d "label" && has_key d "id" &&
      match dict_get d "entities" with
      | Some (JArr es) => forallb valid_entity es
      | _ => false
      end
  | _ => false
  end.

Definition valid_document (data : json) : bool :=
  match query_collections data with
  | inr (JArr cs) => forallb valid_collection cs
  | _ => false
  end.

Definition collections_of (data : json) : list json :=
  match query_collections data with
  | inr (JArr cs) => cs
  | _ => []
  end.

Definition entities_of (c : json) : list json :=
  match subscript c "entities" with
  | inr (JArr es) => es
  | _ => []
  end.

(** The (Collection, Entity) pairs of a document, in the order of the input. *)
Definition pairs (data : json) : list (json * json) :=
  flat_map (fun c => map (fun e => (c, e)) (entities_of c)) (collections_of data).

(** [row] is the row built from the entity of the pair, under the label and
    the id of its collection. *)
Definition row_of_pair (row : pydict) (ce : json * json) : Prop :=
  exists label id,
    subscript (fst ce) "label" = inr label /\
    subscript (fst ce) "id" = inr id /\
    make_row label id (snd ce) = inr row.

(** A partner and its name; a list item and the string it is. *)
Definition partner_name (p : json) (n : string) : Prop :=
  subscript p "name" = inr (JStr n).

Definition is_string (v : json) (s : string) : Prop := v = JStr s.

(** The rows of the transform are rows built by [make_row]. *)
Definition built_row (row : pydict) : Prop :=
  exists label cid entity, make_row label cid entity = inr row.

(** ** Reading the log of a run *)

Definition is_insert (c : call) : bool :=
  match c with
  | insert_rows_json _ _ _ => true
  | _ => false
  end.

(** The bulk inserts a run made. *)
Definition insert_calls (log : list (call * outcome)) : list (call * outcome) :=
  List.filter (fun co => is_insert (fst co)) log.

Definition success : (response_body * Z) := (status_success, 200%Z).

Definition failure (e : pyerr) : (response_body * Z) := (status_error e, 500%Z).

(** The calls to BigQuery, and the two of them that stand in a [try] block. *)
Definition is_bigquery (c : call) : bool :=
  match c with
  | bigquery_Client | get_dataset _ | create_dataset _ | delete_table _ _
  | create_table _ _ _ | insert_rows_json _ _ _ => true
  | _ => false
  end.

Definition in_try (c : call) : bool :=
  match c with
  | get_dataset _ | delete_table _ _ => true
  | _ => false
  end.

(** The five calls a run makes before it turns to BigQuery, when all of them
    return: the fetch, and the write and the upload of each of the two
    files. *)
Definition published (cfg : config) (resp : response) (data : json) (text : string)
    : list (call * outcome) :=
  [ (requests_post URL, ReturnedResponse resp);
    (write_file "/tmp/coursera_response.json" (JsonDump data), Returned);
    (upload_to_gcs (GCS_BUCKET_NAME cfg) "/tmp/coursera_response.json"
       "coursera_response.json", Returned);
    (write_file "/tmp/coursera_courses.csv" (CsvText text), Returned);
    (upload_to_gcs (GCS_BUCKET_NAME cfg) "/tmp/coursera_courses.csv"
       "coursera_courses.csv", Returned) ].

(** The last three calls of a run that succeeds. *)
Definition loaded (cfg : config) (rows : list pydict) (o : outcome) : list (call * outcome) :=
  [ (delete_table (BQ_DATASET_ID cfg) (BQ_TABLE_ID cfg), o);
    (create_table (BQ_DATASET_ID cfg) (BQ_TABLE_ID cfg) SCHEMA, Returned);
    (insert_rows_json (BQ_DATASET_ID cfg) (BQ_TABLE_ID cfg) rows, ReturnedErrors []) ].

(** The last three calls of a run whose insert reports errors. *)
Definition refused (cfg : config) (rows : list pydict) (o : outcome) (errors : list json)
    : list (call * outcome) :=
  [ (delete_table (BQ_DATASET_ID cfg) (BQ_TABLE_ID cfg), o);
    (create_table (BQ_DATASET_ID cfg) (BQ_TABLE_ID cfg) SCHEMA, Returned);
    (insert_rows_json (BQ_DATASET_ID cfg) (BQ_TABLE_ID cfg) rows, ReturnedErrors errors) ].

(** The creation of the table is refused (403). *)
Definition create_table_forbidden (c : call) : option pyerr :=
  match c with
  | create_table _ _ _ => Some Forbidden
  | _ => None
  end.

(** An answer of the API that is an empty list, and one with status 503. *)
Definition empty_response : response := mkResponse 200 (inr (JArr [])).

Definition unavailable_response : response := mkResponse 503 (inl ValueError).

(** The policy of the dataset and table-delete steps as the spec words it: a
    failure of [get_dataset] or of [delete_table] other than "not found"
    ends the run with that failure. *)
Definition other_failures_surface (py_str_container : json -> string) (cfg : config) : Prop :=
  forall (W : Type) (h : handler W) (w : W) (c : call) (e : pyerr),
    c = get_dataset (BQ_DATASET_ID cfg) \/
    c = delete_table (BQ_DATASET_ID cfg) (BQ_TABLE_ID cfg) ->
    e <> NotFound ->
    In (c, Raised e) (calls (run h (main py_str_container cfg) w)) ->
    returned (run h (main py_str_container cfg) w) = failure e.

(** ** The world after a run

    The files and the blobs once the raw answer has been saved, and the
    world once the CSV has been saved too and the table holds [t]. *)

Definition raw_saved (cfg : config) (w : world) (data : json) : world :=
  mkWorld
    (<["/tmp/coursera_response.json" := JsonDump data]> (files w))
    (<[(GCS_BUCKET_NAME cfg, "coursera_response.json") := JsonDump data]> (blobs w))
    (datasets w).

Definition replaced (cfg : config) (w : world) (data : json) (text : string) (t : table)
    : world :=
  mkWorld
    (<["/tmp/coursera_courses.csv" := CsvText text]>
       (<["/tmp/coursera_response.json" := JsonDump data]> (files w)))
    (<[(GCS_BUCKET_NAME cfg, "coursera_courses.csv") := CsvText text]>
       (<[(GCS_BUCKET_NAME cfg, "coursera_response.json") := JsonDump data]> (blobs w)))
    (<[BQ_DATASET_ID cfg :=
         <[BQ_TABLE_ID cfg := t]> (default ∅ (datasets w !! BQ_DATASET_ID cfg))]>
       (datasets w)).

(** ** A sample document

    One collection with two entities, the first with every field and the
    second with the required ones only. *)

Definition full_entity : pydict :=
  [ ("id", JStr "e1"); ("slug", JStr "machine-learning"); ("name", JStr "Machine Learning");
    ("url", JStr "/learn/machine-learning"); ("partnerIds", JArr [JStr "1"; JStr "27"]);
    ("imageUrl", JStr "https://img/e1.png");
    ("partners", JArr [JObj [("name", JStr "Stanford")]; JObj [("name", JStr "DeepLearning.AI")]]);
    ("difficultyLevel", JStr "BEGINNER"); ("isPartOfCourseraPlus", JBool true);
    ("courseCount", JNum 3); ("isCostFree", JBool false);
    ("productCard",
       JObj [ ("marketingProductType", JStr "SPECIALIZATION");
              ("productTypeAttributes", JObj [("isPathwayContent", JBool false)]) ]) ].

Definition bare_entity : pydict :=
  [ ("id", JStr "e2"); ("slug", JStr "sql"); ("name", JStr "SQL, for everyone");
    ("url", JStr "/learn/sql"); ("partnerIds", JArr []);
    ("imageUrl", JStr "https://img/e2.png"); ("partners", JArr []) ].

Definition sample_collection : json :=
  JObj [ ("id", JStr "c1"); ("label", JStr "Data Science");
         ("entities", JArr [JObj full_entity; JObj bare_entity]) ].

Definition sample_document : json :=
  JArr [ JObj [ ("data",
    JObj [ ("DiscoveryCollections",
      JObj [ ("queryCollections", JArr [sample_collection]) ]) ]) ] ].

(** The two rows of the sample document. *)
Definition sample_document_rows : list pydict :=
  [ [ ("collection_label", JStr "Data Science"); ("collection_id", JStr "c1");
      ("course_name", JStr "Machine Learning"); ("course_id", JStr "e1");
      ("slug", JStr "machine-learning"); ("url", JStr "/learn/machine-learning");
      ("image_url", JStr "https://img/e1.png");
      ("partners", JStr "Stanford, DeepLearning.AI"); ("partner_ids", JStr "1, 27");
      ("difficulty_level", JStr "BEGINNER"); ("is_part_of_coursera_plus", JBool true);
      ("course_count", JNum 3); ("is_cost_free", JBool false);
      ("marketing_product_type", JStr "SPECIALIZATION");
      ("is_pathway_content", JBool false) ];
    [ ("collection_label", JStr "Data Science"); ("collection_id", JStr "c1");
      ("course_name", JStr "SQL, for everyone"); ("course_id", JStr "e2");
      ("slug", JStr "sql"); ("url", JStr "/learn/sql");
      ("image_url", JStr "https://img/e2.png");
      ("partners", JStr EmptyString); ("partner_ids", JStr EmptyString);
      ("difficulty_level", JNull); ("is_part_of_coursera_plus", JNull);
      ("course_count", JNull); ("is_cost_free", JNull);
      ("marketing_product_type", JNull); ("is_pathway_content", JNull) ] ].

(** An entity without its [slug], and a document that has it as the second
    entity of its second collection, after the sample collection. *)
Definition no_slug_entity : pydict :=
  [ ("id", JStr "e3"); ("name", JStr "Statistics"); ("url", JStr "/learn/statistics");
    ("partnerIds", JArr [JStr "5"]); ("imageUrl", JStr "https://img/e3.png");
    ("partners", JArr [JObj [("name", JStr "Duke")]]) ].

Definition no_slug_collection : pydict :=
  [ ("id", JStr "c2"); ("label", JStr "Business");
    ("entities", JArr [JObj bare_entity; JObj no_slug_entity; JObj full_entity]) ].

Definition no_slug_document : json :=
  JArr [ JObj [ ("data",
    JObj [ ("DiscoveryCollections",
      JObj [ ("queryCollections", JArr [sample_collection; JObj no_slug_collection]) ]) ]) ] ].

Definition no_slug_response : response := mkResponse 200 (inr no_slug_document).

(** A world with nothing in it, an answer of the API that carries the sample
    document, and a BigQuery that accepts every row. *)
Definition empty_world : world := mkWorld ∅ ∅ ∅.

Definition sample_response : response := mkResponse 200 (inr sample_document).

Definition accept_all (schema : list SchemaField) (row : pydict) : option json := None.

(** The delete of the table is refused (403). *)
Definition delete_forbidden (c : call) : option pyerr :=
  match c with
  | delete_table _ _ => Some Forbidden
  | _ => None
  end.

(** The lookup of the dataset is refused (403). *)
Definition get_forbidden (c : call) : option pyerr :=
  match c with
  | get_dataset _ => Some Forbidden
  | _ => None
  end.

(** A BigQuery that refuses every row, and a world whose table already
    holds a row of an earlier load. *)
Definition reject_all (schema : list SchemaField) (row : pydict) : option json :=
  Some (JObj [("errors", JArr [JObj [("reason", JStr "invalid")]])]).

Definition stale_world : world :=
  mkWorld ∅ ∅
    {[ "coursera_data" := {[ "courses" := mkTable SCHEMA [[("course_id", JStr "old")]] ]} ]}.

(** The lookup of the dataset times out. *)
Definition get_unavailable (c : call) : option pyerr :=
  match c with
  | get_dataset _ => Some (OtherError "ServiceUnavailable")
  | _ => None
  end.

(** The table a world has under the default names. *)
Definition courses_table (w : world) : option table :=
  datasets w !! "coursera_data" ≫= (fun tables => tables !! "courses").

(** The optional part of a row: what [make_row] does once the required keys
    have been read. *)
Definition optional_part (d : pydict) (k : json -> json -> json -> json -> json -> json -> pydict)
    : result pydict :=
  let* product_card := py_get (JObj d) "productCard" (JObj []) in
  let* marketing_product_type := py_get product_card "marketingProductType" JNull in
  let* product_card' := py_get (JObj d) "productCard" (JObj []) in
  let* attributes := py_get product_card' "productTypeAttributes" (JObj []) in
  let* is_pathway_content := py_get attributes "isPathwayContent" JNull in
  inr (k (default JNull (dict_get d "difficultyLevel"))
         (default JNull (dict_get d "isPartOfCourseraPlus"))
         (default JNull (dict_get d "courseCount"))
         (default JNull (dict_get d "isCostFree"))
         marketing_product_type is_pathway_content).

(** * Properties of the transform *)

Lemma bindR_inr {A B} (m : result A) (k : A -> result B) (b : B) :
  bindR m k = inr b -> exists a, m = inr a /\ k a = inr b.
Proof. destruct m as [e|a]; simpl; [discriminate | eauto]. Qed.

Lemma has_key_true d key :
  has_key d key = true -> exists v, dict_get d key = Some v.
Proof. unfold has_key. destruct (dict_get d key); [eauto | discriminate]. Qed.

Lemma mapR_as_str_strings (l : list string) :
  mapR as_str (map JStr l) = inr l.
Proof. induction l as [|s l IH]; simpl; [reflexivity | now rewrite IH]. Qed.

Lemma str_join_strings sep (l : list string) :
  str_join sep (map JStr l) = inr (join sep l).
Proof. unfold str_join. now rewrite mapR_as_str_strings. Qed.

Lemma all_strings (ids : list json) :
  forallb is_str ids = true -> exists strs, ids = map JStr strs.
Proof.
  induction ids as [|v ids IH]; simpl; intros H.
  - now exists [].
  - apply andb_prop in H as [Hv Hids].
    destruct (IH Hids) as [strs ->].
    destruct v; try discriminate. now exists (s :: strs).
Qed.

Lemma Forall2_partner_name_mapR ps names :
  Forall2 partner_name ps names ->
  mapR (fun partner => subscript partner "name") ps = inr (map JStr names).
Proof.
  induction 1 as [|p n ps names Hp _ IH]; simpl; [reflexivity|].
  unfold partner_name in Hp. rewrite Hp. simpl. now rewrite IH.
Qed.

Lemma partner_names (ps : list json) :
  forallb valid_partner ps = true -> exists names, Forall2 partner_name ps names.
Proof.
  induction ps as [|p ps IH]; simpl; intros H.
  - exists []. constructor.
  - apply andb_prop in H as [Hp Hps].
    destruct (IH Hps) as [names Hn].
    destruct p as [| | | | |d]; try discriminate. simpl in Hp.
    destruct (dict_get d "name") as [[| | |s| |]|] eqn:E; try discriminate.
    exists (s :: names). constructor; [|assumption].
    unfold partner_name. simpl. now rewrite E.
Qed.

Lemma py_get_dict d key dflt :
  py_get (JObj d) key dflt = inr (default dflt (dict_get d key)).
Proof. simpl. now destruct (dict_get d key). Qed.

Lemma Forall2_is_string ids strs :
  Forall2 is_string ids strs -> ids = map JStr strs.
Proof. induction 1 as [|v s ids strs Hv _ IH]; simpl; [reflexivity | now rewrite Hv, IH]. Qed.

(** Once the required keys are there and well typed, [make_row] reads them
    and goes on to the optional part. *)
Lemma make_row_required label cid d :
  valid_required d = true ->
  exists ps names ids course_name course_id slug url image_url,
    dict_get d "partners" = Some (JArr ps) /\
    Forall2 partner_name ps names /\
    dict_get d "partnerIds" = Some (JArr (map JStr ids)) /\
    dict_get d "name" = Some course_name /\
    dict_get d "id" = Some course_id /\
    make_row label cid (JObj d) =
      optional_part d (fun difficulty_level is_part_of_coursera_plus course_count
                           is_cost_free marketing_product_type is_pathway_content =>
        [ ("collection_label", label);
          ("collection_id", cid);
          ("course_name", course_name);
          ("course_id", course_id);
          ("slug", slug);
          ("url", url);
          ("image_url", image_url);
          ("partners", JStr (join ", " names));
          ("partner_ids", JStr (join ", " ids));
          ("difficulty_level", difficulty_level);
          ("is_part_of_coursera_plus", is_part_of_coursera_plus);
          ("course_count", course_count);
          ("is_cost_free", is_cost_free);
          ("marketing_product_type", marketing_product_type);
          ("is_pathway_content", is_pathway_content) ]).
Proof.
  unfold valid_required, well_typed_partners, well_typed_partner_ids.
  intros H.
  apply andb_prop in H as [H Hids]. apply andb_prop in H as [Hkeys Hps].
  simpl in Hkeys. rewrite !andb_true_iff in Hkeys.
  destruct Hkeys as (Kp & Kid & Kname & Kslug & Kurl & Kimg & Kpids & _).
  apply has_key_true in Kp as [vp Ep], Kid as [vid Eid], Kname as [vname Ename],
    Kslug as [vslug Eslug], Kurl as [vurl Eurl], Kimg as [vimg Eimg],
    Kpids as [vpids Epids].
  rewrite Ep in Hps. rewrite Epids in Hids.
  destruct vp as [| | | |ps|]; try discriminate.
  destruct vpids as [| | | |ids|]; try discriminate.
  destruct (partner_names ps Hps) as [names Hnames].
  destruct (all_strings ids Hids) as [strs ->].
  exists ps, names, strs, vname, vid, vslug, vurl, vimg.
  repeat split; try assumption.
  unfold make_row, optional_part. simpl subscript.
  rewrite Ep, Epids, Ename, Eid, Eslug, Eurl, Eimg. simpl.
  rewrite (Forall2_partner_name_mapR _ _ Hnames). simpl.
  rewrite !str_join_strings. simpl.
  destruct (dict_get d "difficultyLevel"), (dict_get d "isPartOfCourseraPlus"),
    (dict_get d "courseCount"), (dict_get d "isCostFree"); reflexivity.
Qed.

Lemma Forall2_partner_name_fun ps names names' :
  Forall2 partner_name ps names -> Forall2 partner_name ps names' -> names = names'.
Proof.
  intros H. revert names'.
  induction H as [|p n ps names Hp _ IH]; intros names' H'; inversion H'; subst.
  - reflexivity.
  - unfold partner_name in *. f_equal; [congruence | now apply IH].
Qed.

Lemma valid_entity_inv d :
  valid_entity (JObj d) = true ->
  valid_required d = true /\ well_typed_product_card d = true.
Proof. simpl. intros H. now apply andb_prop in H. Qed.

(** An entity on which [make_row] raises stops the loop over its collection
    with an exception, wherever it stands in the list. *)
Lemma loop_entities_raises label cid e err es :
  make_row label cid e = inl err -> In e es ->
  forall acc, exists err', loop_entities label cid es acc = inl err'.
Proof.
  intros He. induction es as [|x es IH]; intros Hin acc; [destruct Hin|].
  simpl. destruct (make_row label cid x) as [err'|row] eqn:Hx; simpl; [eauto|].
  destruct Hin as [->|Hin]; [congruence | now apply IH].
Qed.

Lemma optional_part_ok d k :
  well_typed_product_card d = true ->
  exists marketing_product_type is_pathway_content,
    optional_part d k =
      inr (k (default JNull (dict_get d "difficultyLevel"))
             (default JNull (dict_get d "isPartOfCourseraPlus"))
             (default JNull (dict_get d "courseCount"))
             (default JNull (dict_get d "isCostFree"))
             marketing_product_type is_pathway_content).
Proof.
  unfold well_typed_product_card, optional_part. intros H.
  rewrite !py_get_dict.
  destruct (dict_get d "productCard") as [[| | | | |pc]|]; try discriminate;
    cbn [default from_option Datatypes.id bindR]; rewrite ?py_get_dict.
  - destruct (dict_get pc "productTypeAttributes") as [[| | | | |attrs]|];
      try discriminate; cbn [default from_option Datatypes.id bindR];
      rewrite ?py_get_dict; cbn [bindR]; eauto.
  - cbn [bindR]. eauto.
Qed.

(** An entity of the data model gives a row, whose required fields are the
    ones of the entity. *)
Lemma make_row_valid label cid d :
  valid_entity (JObj d) = true ->
  exists row,
    make_row label cid (JObj d) = inr row /\
    (forall ps names, dict_get d "partners" = Some (JArr ps) ->
       Forall2 partner_name ps names ->
       dict_get row "partners" = Some (JStr (join ", " names))) /\
    (forall strs, dict_get d "partnerIds" = Some (JArr (map JStr strs)) ->
       dict_get row "partner_ids" = Some (JStr (join ", " strs))) /\
    dict_get row "collection_label" = Some label /\
    dict_get row "collection_id" = Some cid /\
    dict_get row "course_name" = dict_get d "name" /\
    dict_get row "course_id" = dict_get d "id".
Proof.
  intros H. apply valid_entity_inv in H as [Hreq Hpc].
  destruct (make_row_required label cid d Hreq)
    as (ps & names & ids & cn & ci & sl & ur & im & Hps & Hnames & Hids & Hcn & Hci & ->).
  edestruct (optional_part_ok d) as (mpt & ipc & ->); [exact Hpc|].
  eexists. split; [reflexivity|].
  repeat split; try (symmetry; assumption).
  - intros ps' names' Hps' Hnames'. rewrite Hps in Hps'. injection Hps' as <-.
    now rewrite (Forall2_partner_name_fun _ _ _ Hnames Hnames').
  - intros strs Hstrs. rewrite Hids in Hstrs. injection Hstrs as E.
    assert (ids = strs) as ->; [|reflexivity].
    clear -E. revert strs E. induction ids as [|x ids IH]; intros [|y strs] E;
      try discriminate; [reflexivity|].
    injection E as -> E. f_equal. now apply IH.
Qed.

(** C3: an entity of the data model that lacks [difficultyLevel],
    [isPartOfCourseraPlus], [courseCount], [isCostFree], the whole
    [productCard], or a sub-field of it at any of its levels, still gives a
    row, and the field of the row that reads the missing key is null. *)
Theorem missing_optional_field_is_null label cid d :
  valid_entity (JObj d) = true ->
  exists row,
    make_row label cid (JObj d) = inr row /\
    (dict_get d "difficultyLevel" = None ->
     dict_get row "difficulty_level" = Some JNull) /\
    (dict_get d "isPartOfCourseraPlus" = None ->
     dict_get row "is_part_of_coursera_plus" = Some JNull) /\
    (dict_get d "courseCount" = None ->
     dict_get row "course_count" = Some JNull) /\
    (dict_get d "isCostFree" = None ->
     dict_get row "is_cost_free" = Some JNull) /\
    (dict_get d "productCard" = None ->
     dict_get row "marketing_product_type" = Some JNull /\
     dict_get row "is_pathway_content" = Some JNull) /\
    (forall pc, dict_get d "productCard" = Some (JObj pc) ->
       (dict_get pc "marketingProductType" = None ->
        dict_get row "marketing_product_type" = Some JNull) /\
       (dict_get pc "productTypeAttributes" = None ->
        dict_get row "is_pathway_content" = Some JNull) /\
       (forall attrs, dict_get pc "productTypeAttributes" = Some (JObj attrs) ->
          dict_get attrs "isPathwayContent" = None ->
          dict_get row "is_pathway_content" = Some JNull)).
Proof.
  intros H. apply valid_entity_inv in H as [Hreq Hpc].
  destruct (make_row_required label cid d Hreq)
    as (ps & names & ids & cn & ci & sl & ur & im & _ & _ & _ & _ & _ & ->).
  unfold optional_part, well_typed_product_card in *.
  rewrite !py_get_dict.
  destruct (dict_get d "productCard") as [[| | | | |pc]|]; try discriminate;
    cbn [default from_option Datatypes.id bindR].
  - rewrite !py_get_dict.
    destruct (dict_get pc "productTypeAttributes") as [[| | | | |attrs]|] eqn:Eattrs;
      try discriminate; cbn [default from_option Datatypes.id bindR];
      rewrite ?py_get_dict; cbn [default from_option Datatypes.id bindR];
      (eexists; split; [reflexivity|]);
      (split; [|split; [|split; [|split; [|split]]]]);
      try (intros ->; reflexivity); try discriminate;
      intros pc' [= <-]; (split; [|split]);
      try (intros ->; reflexivity); try congruence.
    + intros attrs' E. rewrite Eattrs in E. injection E as <-. intros ->. reflexivity.
    + intros _. reflexivity.
  - eexists. split; [reflexivity|].
    split; [|split; [|split; [|split; [|split]]]];
      try (intros ->; reflexivity); try discriminate.
    split; reflexivity.
Qed.

Lemma missing_optional_field_is_null_witness :
  exists row,
    make_row (JStr "Data Science") (JStr "c1") (JObj bare_entity) = inr row /\
    dict_get row "difficulty_level" = Some JNull /\
    dict_get row "marketing_product_type" = Some JNull /\
    dict_get row "is_pathway_content" = Some JNull.
Proof.
  destruct (missing_optional_field_is_null (JStr "Data Science") (JStr "c1") bare_entity)
    as (row & Hrow & Hdl & _ & _ & _ & Hpc & _); [reflexivity|].
  exists row. split; [exact Hrow|].
  split; [apply Hdl; reflexivity|]. apply Hpc. reflexivity.
Defined.

(** C4: the [partners] and [partner_ids] of the row are the partner names
    and the partner ids of the entity, in their order and with their
    repetitions, joined by a comma and a space; an empty list gives the empty
    string. *)
Theorem partners_are_joined label cid d ps names ids strs :
  valid_entity (JObj d) = true ->
  dict_get d "partners" = Some (JArr ps) ->
  Forall2 partner_name ps names ->
  dict_get d "partnerIds" = Some (JArr ids) ->
  Forall2 is_string ids strs ->
  exists row,
    make_row label cid (JObj d) = inr row /\
    dict_get row "partners" = Some (JStr (join ", " names)) /\
    dict_get row "partner_ids" = Some (JStr (join ", " strs)) /\
    (ps = [] -> dict_get row "partners" = Some (JStr EmptyString)) /\
    (ids = [] -> dict_get row "partner_ids" = Some (JStr EmptyString)).
Proof.
  intros Hvalid Hps Hnames Hids Hstrs.
  destruct (make_row_valid label cid d Hvalid) as (row & Hrow & Hp & Hi & _).
  exists row. split; [exact Hrow|].
  specialize (Hp ps names Hps Hnames).
  specialize (Hi strs). rewrite Hids, (Forall2_is_string _ _ Hstrs) in Hi.
  specialize (Hi eq_refl).
  repeat split; try assumption.
  - intros ->. inversion Hnames; subst. exact Hp.
  - intros ->. inversion Hstrs; subst. exact Hi.
Qed.

Lemma partners_are_joined_witness :
  exists row,
    make_row (JStr "Data Science") (JStr "c1") (JObj full_entity) = inr row /\
    dict_get row "partners" = Some (JStr "Stanford, DeepLearning.AI") /\
    dict_get row "partner_ids" = Some (JStr "1, 27").
Proof.
  destruct (partners_are_joined (JStr "Data Science") (JStr "c1") full_entity
              [JObj [("name", JStr "Stanford")]; JObj [("name", JStr "DeepLearning.AI")]]
              ["Stanford"; "DeepLearning.AI"] [JStr "1"; JStr "27"] ["1"; "27"])
    as (row & Hrow & Hp & Hi & _).
  - reflexivity.
  - reflexivity.
  - repeat constructor.
  - reflexivity.
  - repeat constructor.
  - exists row. split; [exact Hrow|]. split; [exact Hp | exact Hi].
Defined.

(** C9: an entity without the key [partners] raises [KeyError] on that key,
    the first one the loop reads, and the loop over its collection stops with
    an exception. *)
Theorem missing_partners_raises label cid d :
  dict_get d "partners" = None ->
  make_row label cid (JObj d) = inl (KeyError (JStr "partners")) /\
  forall es acc, In (JObj d) es -> exists err, loop_entities label cid es acc = inl err.
Proof.
  intros H.
  assert (make_row label cid (JObj d) = inl (KeyError (JStr "partners"))) as Hrow.
  { unfold make_row. simpl. now rewrite H. }
  split; [exact Hrow|].
  intros es acc Hin. now apply (loop_entities_raises _ _ _ _ _ Hrow).
Qed.

Lemma missing_partners_raises_witness :
  make_row (JStr "Data Science") (JStr "c1")
    (JObj [("id", JStr "e3"); ("name", JStr "Go"); ("slug", JStr "go"); ("url", JStr "/go");
           ("imageUrl", JStr "i"); ("partnerIds", JArr [])])
  = inl (KeyError (JStr "partners")).
Proof.
  apply (missing_partners_raises (JStr "Data Science") (JStr "c1")
           [("id", JStr "e3"); ("name", JStr "Go"); ("slug", JStr "go"); ("url", JStr "/go");
            ("imageUrl", JStr "i"); ("partnerIds", JArr [])]).
  reflexivity.
Defined.

(** C10: an entity whose [productCard] is [null] gives no row: [make_row]
    raises, and when the required keys are there the exception is the
    [AttributeError] of calling [get] on [None]. *)
Theorem null_product_card_raises label cid d :
  dict_get d "productCard" = Some JNull ->
  (exists err, make_row label cid (JObj d) = inl err) /\
  (valid_required d = true -> make_row label cid (JObj d) = inl AttributeError).
Proof.
  intros H.
  assert (forall k, optional_part d k = inl AttributeError) as Hopt.
  { intros k. unfold optional_part. rewrite !py_get_dict, H. reflexivity. }
  split.
  - unfold make_row.
    repeat match goal with
           | |- exists err, bindR (py_get _ _ _) _ = inl err => fail 1
           | |- exists err, bindR ?m _ = inl err =>
               destruct m as [?e|?x]; cbn [bindR]; [eexists; reflexivity|]
           end.
    rewrite !py_get_dict. cbn [bindR]. rewrite H. cbn. eauto.
  - intros Hreq.
    destruct (make_row_required label cid d Hreq)
      as (ps & names & ids & cn & ci & sl & ur & im & _ & _ & _ & _ & _ & ->).
    apply Hopt.
Qed.

Lemma null_product_card_raises_witness :
  make_row (JStr "Data Science") (JStr "c1") (JObj (("productCard", JNull) :: bare_entity))
  = inl AttributeError.
Proof.
  apply (null_product_card_raises (JStr "Data Science") (JStr "c1")
           (("productCard", JNull) :: bare_entity)); reflexivity.
Defined.

Lemma subscript_inr d key v :
  subscript (JObj d) key = inr v -> dict_get d key = Some v.
Proof. simpl. destruct (dict_get d key); [now intros [= ->] | discriminate]. Qed.

(** A row is built only from an entity that has the seven keys the loop
    subscripts. *)
Lemma make_row_inr_keys label cid d row :
  make_row label cid (JObj d) = inr row ->
  forall k, In k ("partners" :: required_keys) -> dict_get d k <> None.
Proof.
  intros H k Hk. unfold make_row in H.
  do 12 (apply bindR_inr in H as (? & ?E & H)). clear H.
  repeat match goal with
         | E : subscript (JObj d) _ = inr _ |- _ => apply subscript_inr in E
         end.
  simpl in Hk.
  repeat destruct Hk as [<-|Hk]; congruence || contradiction.
Qed.

(** An entity that lacks one of [id], [name], [slug], [url], [imageUrl],
    [partnerIds] gives no row: [make_row] raises and the loop over its
    collection stops with an exception; the exception of [make_row] is the
    [KeyError] of a key the entity does not have when the partners and the
    partner ids that are there are lists of the data model. *)
Lemma missing_required_key_no_row label cid d key :
  In key required_keys ->
  dict_get d key = None ->
  (exists err, make_row label cid (JObj d) = inl err) /\
  (forall es acc, In (JObj d) es ->
     exists err, loop_entities label cid es acc = inl err) /\
  (well_typed_partners d = true -> well_typed_partner_ids d = true ->
   exists k, dict_get d k = None /\
             make_row label cid (JObj d) = inl (KeyError (JStr k))).
Proof.
  intros Hkey Hnone.
  assert (exists err, make_row label cid (JObj d) = inl err) as Hraises.
  { destruct (make_row label cid (JObj d)) as [err|row] eqn:Hrow; [eauto|].
    exfalso. apply (make_row_inr_keys _ _ _ _ Hrow key); [now right | exact Hnone]. }
  split; [exact Hraises|]. split.
  { destruct Hraises as [err Hrow].
    intros es acc Hin. now apply (loop_entities_raises _ _ _ _ _ Hrow). }
  intros Hps Hids.
  unfold make_row, well_typed_partners, well_typed_partner_ids in *.
  cbn [subscript].
  destruct (dict_get d "partners") as [vp|] eqn:Ep;
    [|exists "partners"; split; [assumption | reflexivity]].
  destruct vp as [| | | |ps|]; try discriminate.
  destruct (partner_names ps Hps) as [names Hnames].
  cbn [bindR py_iter]. rewrite (Forall2_partner_name_mapR _ _ Hnames).
  cbn [bindR]. rewrite str_join_strings. cbn [bindR].
  destruct (dict_get d "partnerIds") as [vi|] eqn:Ei;
    [|exists "partnerIds"; split; [assumption | reflexivity]].
  destruct vi as [| | | |ids|]; try discriminate.
  destruct (all_strings ids Hids) as [strs ->].
  cbn [bindR py_iter]. rewrite str_join_strings. cbn [bindR].
  destruct (dict_get d "name") eqn:En;
    [|exists "name"; split; [assumption | reflexivity]].
  destruct (dict_get d "id") eqn:Eid;
    [|exists "id"; split; [assumption | reflexivity]].
  destruct (dict_get d "slug") eqn:Es;
    [|exists "slug"; split; [assumption | reflexivity]].
  destruct (dict_get d "url") eqn:Eu;
    [|exists "url"; split; [assumption | reflexivity]].
  destruct (dict_get d "imageUrl") eqn:Eim;
    [|exists "imageUrl"; split; [assumption | reflexivity]].
  exfalso. simpl in Hkey.
  repeat destruct Hkey as [<-|Hkey]; congruence || contradiction.
Qed.

Lemma loop_entities_valid label cid es :
  forallb valid_entity es = true ->
  forall acc, exists rows,
    loop_entities label cid es acc = inr (acc ++ rows) /\
    Forall2 (fun row e => make_row label cid e = inr row) rows es.
Proof.
  induction es as [|e es IH]; simpl; intros H acc.
  - exists []. split; [now rewrite app_nil_r | constructor].
  - apply andb_prop in H as [He Hes].
    destruct e as [| | | | |d]; try discriminate.
    destruct (make_row_valid label cid d He) as (row & Hrow & _).
    rewrite Hrow. cbn [bindR].
    destruct (IH Hes (acc ++ [row])) as (rows & -> & Hrows).
    exists (row :: rows). split; [now rewrite <- app_assoc | now constructor].
Qed.

Lemma loop_collections_valid cs :
  forallb valid_collection cs = true ->
  forall acc, exists rows,
    loop_collections cs acc = inr (acc ++ rows) /\
    Forall2 row_of_pair rows
      (flat_map (fun c => map (fun e => (c, e)) (entities_of c)) cs).
Proof.
  induction cs as [|c cs IH]; simpl; intros H acc.
  - exists []. split; [now rewrite app_nil_r | constructor].
  - apply andb_prop in H as [Hc Hcs].
    destruct c as [| | | | |d]; try discriminate.
    cbn [valid_collection] in Hc.
    apply andb_prop in Hc as [Hc Hes]. apply andb_prop in Hc as [Hl Hi].
    apply has_key_true in Hl as [label El], Hi as [cid Ei].
    destruct (dict_get d "entities") as [[| | | |es|]|] eqn:Ee; try discriminate.
    unfold entities_of. cbn [subscript]. rewrite El, Ei, Ee. cbn [bindR py_iter].
    destruct (loop_entities_valid label cid es Hes acc) as (rows1 & -> & Hrows1).
    cbn [bindR].
    destruct (IH Hcs (acc ++ rows1)) as (rows2 & -> & Hrows2).
    exists (rows1 ++ rows2). split; [now rewrite <- app_assoc|].
    apply Forall2_app; [|exact Hrows2].
    clear -Hrows1 El Ei. induction Hrows1 as [|row e rows es Hrow _ IHr]; simpl.
    + constructor.
    + constructor; [|exact IHr].
      exists label, cid. simpl. rewrite El, Ei. auto.
Qed.

Lemma length_pairs cs :
  length (flat_map (fun c => map (fun e => (c, e)) (entities_of c)) cs) =
  sum_list (map (fun c => length (entities_of c)) cs).
Proof.
  induction cs as [|c cs IH]; simpl; [reflexivity|].
  now rewrite length_app, length_map, IH.
Qed.

(** C1: for a document of the data model the transform returns one row per
    (Collection, Entity) pair: as many rows as the collections have entities
    in all, the i-th row being the row of the i-th pair of the input (input
    order, repetitions kept). *)
Theorem transform_one_row_per_pair data :
  valid_document data = true ->
  exists rows,
    transform data = inr rows /\
    length rows = sum_list (map (fun c => length (entities_of c)) (collections_of data)) /\
    Forall2 row_of_pair rows (pairs data).
Proof.
  unfold valid_document, transform, pairs, collections_of. intros H.
  destruct (query_collections data) as [err|[| | | |cs|]]; try discriminate.
  cbn [bindR py_iter].
  destruct (loop_collections_valid cs H []) as (rows & -> & Hrows).
  exists rows. split; [reflexivity|]. split; [|exact Hrows].
  rewrite <- length_pairs. exact (Forall2_length _ _ _ Hrows).
Qed.

Lemma transform_one_row_per_pair_witness :
  exists rows,
    transform sample_document = inr rows /\
    length rows = 2 /\
    Forall2 row_of_pair rows
      [(sample_collection, JObj full_entity); (sample_collection, JObj bare_entity)].
Proof.
  apply (transform_one_row_per_pair sample_document). reflexivity.
Defined.

(** * The CSV file read back *)



















Lemma loop_entities_built label cid es :
  forall acc out, loop_entities label cid es acc = inr out ->
    Forall built_row acc -> Forall built_row out.
Proof.
  induction es as [|e es IH]; simpl; intros acc out H Hacc.
  - now injection H as <-.
  - apply bindR_inr in H as (row & Hrow & H).
    apply (IH _ _ H). apply Forall_app. split; [exact Hacc|].
    constructor; [|constructor]. now exists label, cid, e.
Qed.

Lemma loop_collections_built cs :
  forall acc out, loop_collections cs acc = inr out ->
    Forall built_row acc -> Forall built_row out.
Proof.
  induction cs as [|c cs IH]; simpl; intros acc out H Hacc.
  - now injection H as <-.
  - apply bindR_inr in H as (label & _ & H). apply bindR_inr in H as (cid & _ & H).
    apply bindR_inr in H as (ents & _ & H). apply bindR_inr in H as (es & _ & H).
    apply bindR_inr in H as (acc' & Hacc' & H).
    apply (IH _ _ H). now apply (loop_entities_built _ _ _ _ _ Hacc').
Qed.

Lemma transform_built data rows :
  transform data = inr rows -> Forall built_row rows.
Proof.
  unfold transform. intros H.
  apply bindR_inr in H as (cs & _ & H). apply bindR_inr in H as (l & _ & H).
  apply (loop_collections_built _ _ _ H). constructor.
Qed.

(** A row of [make_row] has the fifteen keys of the header and no other. *)
Lemma built_row_keys row :
  built_row row -> map fst row = CSV_HEADERS.
Proof.
  intros (label & cid & e & H). unfold make_row in H.
  repeat (apply bindR_inr in H as (? & _ & H)).
  injection H as <-. reflexivity.
Qed.

Section CsvProperties.

Variable py_str_container : json -> string.

Lemma dict_to_list_built row :
  built_row row ->
  dict_to_list CSV_HEADERS row =
  inr (map (fun key => default (JStr EmptyString) (dict_get row key)) CSV_HEADERS).
Proof.
  intros H. unfold dict_to_list.
  assert (forallb (fun kv => bool_decide (fst kv ∈ CSV_HEADERS)) row = true) as ->;
    [|reflexivity].
  apply built_row_keys in H.
  apply forallb_forall. intros kv Hin.
  apply bool_decide_eq_true_2. rewrite <- H.
  apply list_elem_of_In. now apply in_map.
Qed.

Lemma writerows_built rows :
  Forall built_row rows ->
  writerows py_str_container CSV_HEADERS rows =
  inr (concat_lines (map csv_record (map (cells py_str_container) rows))).
Proof.
  intros H. unfold writerows.
  assert (mapR (dict_to_list CSV_HEADERS) rows =
          inr (map (fun row => map (fun key => default (JStr EmptyString) (dict_get row key))
                                   CSV_HEADERS) rows)) as ->.
  { induction H as [|row rows Hrow _ IH]; [reflexivity|].
    simpl mapR. rewrite (dict_to_list_built row Hrow), IH. reflexivity. }
  cbn [bindR]. f_equal. f_equal.
  rewrite !map_map. reflexivity.
Qed.

(** For the rows of the transform the writer does not fail, and the text of
    the file is the header line followed by one line per row. *)
Lemma csv_file_transform data rows :
  transform data = inr rows ->
  csv_file py_str_container rows =
  inr (concat_lines (map csv_record (CSV_HEADERS :: map (cells py_str_container) rows))).
Proof.
  intros H. unfold csv_file.
  rewrite (writerows_built rows (transform_built _ _ H)). reflexivity.
Qed.


End CsvProperties.


(** * Properties of the run *)

(** One step of a run against an arbitrary handler: the answer of the handler
    to the next call is named and split into its two cases. *)
Ltac answer_call h :=
  match goal with
  | |- context [h ?c ?w] =>
      let w' := fresh "w" in
      let e := fresh "e" in
      let a := fresh "a" in
      destruct (h c w) as [w' [e|a]]; cbn -[transform csv_file In]
  end.

Ltac split_pure :=
  match goal with
  | |- context [negb (?s =? 200)%Z] =>
      destruct (s =? 200)%Z eqn:?Hstatus; cbn -[transform csv_file In]
  | |- context [response_json ?r] =>
      destruct (response_json r) as [?e|?data] eqn:?Hjson; cbn -[transform csv_file In]
  | |- context [transform ?d] =>
      destruct (transform d) as [?e|?rows] eqn:?Htransform; cbn -[transform csv_file In]
  | |- context [csv_file ?p ?d] =>
      destruct (csv_file p d) as [?e|?text] eqn:?Hcsv; cbn -[transform csv_file In]
  | |- context [match ?l with [] => retM tt | _ :: _ => _ end] =>
      destruct l; cbn -[transform csv_file In]
  end.

(** Every way the run of [main] can go against a handler. *)
Ltac run_cases h :=
  unfold main, pipeline; cbn -[transform csv_file In];
  repeat first [split_pure | answer_call h].

(** What is left to show about a call of the log once the log is known: the
    call is one of the entries. *)
Ltac pick_entry H :=
  simpl in H;
  repeat (destruct H as [H|H]; [injection H as <- <-|]);
  [..|destruct H].

(** An entry known to be in the log: the entries it cannot be are dropped. *)
Ltac find_entry H :=
  simpl in H;
  repeat (destruct H as [H|H]; [try discriminate H|]);
  [..|destruct H].

Ltac entry_there := solve [simpl; eauto 20].

Ltac step_goal :=
  intros;
  match goal with
  | H : In _ _ |- _ => find_entry H; try (injection H; intros; subst)
  end;
  first [ reflexivity
        | entry_there
        | eexists _, _; entry_there
        | split; [intros ? ?H'; find_entry H' | entry_there] ].

(** The CSV writer does not raise on the rows of the transform. *)
Ltac csv_written :=
  try match goal with
      | Ht : transform _ = inr ?rows, Hc : csv_file _ ?rows = inl _ |- _ =>
          rewrite (csv_file_transform _ _ _ Ht) in Hc; discriminate Hc
      end.

(** The call of the log that raised outside a [try] block. *)
Ltac raised_entry :=
  match goal with
  | |- exists c e, In (c, Raised e) ?log /\ _ =>
      match log with
      | context [(?c0, Raised ?e0)] =>
          exists c0, e0; split; [entry_there | repeat split; reflexivity]
      end
  end.

(** C6: all the rows go in one bulk insert. A run makes at most one
    [insert_rows_json]; it is the last call of the run and is given all the
    rows of the transform; when it reports errors the run answers with the
    failure that carries them (status 500), and when it reports none the run
    succeeds. And the insert is made: once [create_table] has returned, the
    run ends with the insert of the rows of the transform; and every run
    either has a call outside the two [try] blocks, other than the insert,
    that raised (the run answers with that failure), or got from the API a
    status other than 200, a body that is not JSON or a document on which
    the transform raises, or ends with the insert of all the rows, made
    after [create_table] returned. *)
Theorem single_bulk_insert {W} (h : handler W) py cfg w :
  let r := run h (main py cfg) w in
  let ds := BQ_DATASET_ID cfg in
  let tbl := BQ_TABLE_ID cfg in
  length (insert_calls (calls r)) <= 1 /\
  (forall c o, In (c, o) (calls r) -> is_insert c = true ->
     last (calls r) = Some (c, o) /\
     (exists resp data rows,
        head (calls r) = Some (requests_post URL, ReturnedResponse resp) /\
        response_json resp = inr data /\
        transform data = inr rows /\
        c = insert_rows_json ds tbl rows) /\
     (forall errors, o = ReturnedErrors errors -> errors <> [] ->
        returned r = failure (BigQueryInsertErrors errors)) /\
     (o = ReturnedErrors [] -> returned r = success)) /\
  (In (create_table ds tbl SCHEMA, Returned) (calls r) ->
     exists resp data rows o,
       head (calls r) = Some (requests_post URL, ReturnedResponse resp) /\
       response_json resp = inr data /\
       transform data = inr rows /\
       last (calls r) = Some (insert_rows_json ds tbl rows, o)) /\
  ((exists c e,
      In (c, Raised e) (calls r) /\ in_try c = false /\ is_insert c = false /\
      returned r = failure e) \/
   (exists resp,
      head (calls r) = Some (requests_post URL, ReturnedResponse resp) /\
      ((status_code resp =? 200)%Z = false \/
       (exists e, response_json resp = inl e) \/
       (exists data e, response_json resp = inr data /\ transform data = inl e))) \/
   (exists resp data rows o,
      head (calls r) = Some (requests_post URL, ReturnedResponse resp) /\
      (status_code resp =? 200)%Z = true /\
      response_json resp = inr data /\
      transform data = inr rows /\
      In (create_table ds tbl SCHEMA, Returned) (calls r) /\
      last (calls r) = Some (insert_rows_json ds tbl rows, o))).
Proof.
  run_cases h; cbv zeta; csv_written;
    (split; [simpl; lia|]);
    (split;
       [ intros c o Hin Hins; pick_entry Hin; try discriminate Hins;
         (split; [reflexivity|]);
         (split; [eexists _, _, _; repeat split; eassumption|]);
         (split; [intros errors [= <-] Hne; congruence || reflexivity
                 | intros [=]; reflexivity]) |]);
    (split;
       [ intros Hin; find_entry Hin;
         eexists _, _, _, _; repeat split; first [eassumption | reflexivity] |]);
    first
      [ solve [left; raised_entry]
      | solve [right; left; eexists; split; [reflexivity|]; eauto 6]
      | solve [right; right; eexists _, _, _, _;
               repeat split; first [eassumption | reflexivity | entry_there]] ].
Qed.

(** The dataset and table steps as the code has them: when [get_dataset]
    returns, no dataset is created and the run goes on to the delete; when it raises, whatever the
    exception, [create_dataset] is called, and an exception of that call,
    whatever it is ("already exists" too), ends the run with that failure;
    whatever [delete_table] does, returning or raising any exception, the run
    goes on to [create_table] with the fixed schema; an exception of
    [create_table] ends the run with that failure, and when it returns the
    rows are inserted. *)
Theorem table_replacer_steps {W} (h : handler W) py cfg w :
  let r := run h (main py cfg) w in
  let ds := BQ_DATASET_ID cfg in
  let tbl := BQ_TABLE_ID cfg in
  (In (get_dataset ds, Returned) (calls r) ->
     (forall o, ~ In (create_dataset ds, o) (calls r)) /\
     (exists o, In (delete_table ds tbl, o) (calls r))) /\
  (forall e, In (get_dataset ds, Raised e) (calls r) ->
     exists o, In (create_dataset ds, o) (calls r)) /\
  (forall e, In (create_dataset ds, Raised e) (calls r) -> returned r = failure e) /\
  (In (create_dataset ds, Returned) (calls r) ->
     exists o, In (delete_table ds tbl, o) (calls r)) /\
  (forall o, In (delete_table ds tbl, o) (calls r) ->
     exists o', In (create_table ds tbl SCHEMA, o') (calls r)) /\
  (forall e, In (create_table ds tbl SCHEMA, Raised e) (calls r) ->
     returned r = failure e) /\
  (In (create_table ds tbl SCHEMA, Returned) (calls r) ->
     exists rows o, In (insert_rows_json ds tbl rows, o) (calls r)).
Proof.
  run_cases h; cbv zeta;
    repeat match goal with |- _ /\ _ => split end; step_goal.
Qed.

(** C7: the code does not keep the policy of the claim, which is also the
    one its own comments state (the dataset is created if it does not exist;
    the exception of the delete is passed over because the table does not
    exist). Both [try] blocks have a bare [except], which catches every
    exception. At this input, an empty BigQuery and a delete of the table
    that is refused with [Forbidden], which is not "does not exist", the
    exception is swallowed and the run ends in success: a failure of another
    kind at that step is not surfaced. *)
Lemma delete_failure_is_swallowed :
  let r := run (with_faults delete_forbidden (services sample_response accept_all))
               (main (fun _ => EmptyString) default_config) empty_world in
  In (delete_table "coursera_data" "courses", Raised Forbidden) (calls r) /\
  returned r = success /\
  ~ other_failures_surface (fun _ => EmptyString) default_config.
Proof.
  assert (In (delete_table "coursera_data" "courses", Raised Forbidden)
             (calls (run (with_faults delete_forbidden (services sample_response accept_all))
                         (main (fun _ => EmptyString) default_config) empty_world))) as Hin.
  { vm_compute. tauto. }
  assert (returned (run (with_faults delete_forbidden (services sample_response accept_all))
                        (main (fun _ => EmptyString) default_config) empty_world) = success)
    as Hret by (vm_compute; reflexivity).
  cbv zeta. split; [exact Hin|]. split; [exact Hret|].
  intros Hpolicy.
  assert (returned (run (with_faults delete_forbidden (services sample_response accept_all))
                        (main (fun _ => EmptyString) default_config) empty_world)
          = failure Forbidden) as Hbad.
  { apply (Hpolicy world _ empty_world (delete_table "coursera_data" "courses") Forbidden);
      [right; reflexivity | discriminate | exact Hin]. }
  rewrite Hret in Hbad. discriminate Hbad.
Qed.

(** The same with the lookup of the dataset: [get_dataset] is refused with
    [Forbidden], the dataset is created, and the run ends in success. *)
Example get_failure_is_swallowed :
  let r := run (with_faults get_forbidden (services sample_response accept_all))
               (main (fun _ => EmptyString) default_config) empty_world in
  In (get_dataset "coursera_data", Raised Forbidden) (calls r) /\
  In (create_dataset "coursera_data", Returned) (calls r) /\
  returned r = success.
Proof. vm_compute. tauto. Qed.

Section Replace.

Variable upstream : response.
Variable row_error : list SchemaField -> pydict -> option json.
Variable py_str_container : json -> string.
Variable cfg : config.

Ltac world_step :=
  cbn -[transform csv_file In];
  rewrite ?lookup_insert_eq, ?lookup_delete_eq, ?lookup_empty;
  repeat match goal with
         | H : ?m !! ?k = _ |- context [?m !! ?k] => rewrite H
         end;
  cbn -[transform csv_file In].

(** The run stops before it writes anything when the API does not answer 200
    or its answer is not JSON. *)
Lemma run_bad_status w :
  (status_code upstream =? 200)%Z = false ->
  final (run (services upstream row_error) (main py_str_container cfg) w) = w /\
  returned (run (services upstream row_error) (main py_str_container cfg) w)
    = failure (ApiRequestFailed (status_code upstream)).
Proof.
  intros Hs. unfold main, pipeline. cbn -[transform csv_file In].
  rewrite Hs. cbn. auto.
Qed.

Lemma run_bad_json w e :
  (status_code upstream =? 200)%Z = true ->
  response_json upstream = inl e ->
  final (run (services upstream row_error) (main py_str_container cfg) w) = w /\
  returned (run (services upstream row_error) (main py_str_container cfg) w) = failure e.
Proof.
  intros Hs Hj. unfold main, pipeline. cbn -[transform csv_file In].
  rewrite Hs, Hj. cbn. auto.
Qed.

(** The run stops after the raw answer has been saved when the transform, or
    the CSV writer, raises. *)
Lemma run_transform_raises w data e :
  (status_code upstream =? 200)%Z = true ->
  response_json upstream = inr data ->
  transform data = inl e ->
  final (run (services upstream row_error) (main py_str_container cfg) w)
    = raw_saved cfg w data /\
  returned (run (services upstream row_error) (main py_str_container cfg) w) = failure e.
Proof.
  intros Hs Hj Ht. unfold main, pipeline. cbn -[transform csv_file In].
  rewrite Hs, Hj. repeat world_step. rewrite Ht. world_step. auto.
Qed.

Lemma run_csv_raises w data rows e :
  (status_code upstream =? 200)%Z = true ->
  response_json upstream = inr data ->
  transform data = inr rows ->
  csv_file py_str_container rows = inl e ->
  final (run (services upstream row_error) (main py_str_container cfg) w)
    = raw_saved cfg w data /\
  returned (run (services upstream row_error) (main py_str_container cfg) w) = failure e.
Proof.
  intros Hs Hj Ht Hc. unfold main, pipeline. cbn -[transform csv_file In].
  rewrite Hs, Hj. repeat world_step. rewrite Ht. world_step. rewrite Hc. world_step. auto.
Qed.

(** When the transform gives rows, the run saves both files, drops the table
    and creates it again, and loads the rows, unless BigQuery reports errors
    for some of them, in which case the table of the model is left empty. *)
Lemma run_loads w data rows text :
  (status_code upstream =? 200)%Z = true ->
  response_json upstream = inr data ->
  transform data = inr rows ->
  csv_file py_str_container rows = inr text ->
  match omap (row_error SCHEMA) rows with
  | [] =>
      final (run (services upstream row_error) (main py_str_container cfg) w)
        = replaced cfg w data text (mkTable SCHEMA rows) /\
      returned (run (services upstream row_error) (main py_str_container cfg) w) = success
  | errors =>
      final (run (services upstream row_error) (main py_str_container cfg) w)
        = replaced cfg w data text (mkTable SCHEMA []) /\
      returned (run (services upstream row_error) (main py_str_container cfg) w)
        = failure (BigQueryInsertErrors errors)
  end.
Proof.
  intros Hs Hj Ht Hc. unfold main, pipeline. cbn -[transform csv_file In].
  rewrite Hs, Hj. repeat world_step. rewrite Ht. world_step. rewrite Hc.
  repeat world_step.
  destruct (datasets w !! BQ_DATASET_ID cfg) as [tables|] eqn:Hds; repeat world_step.
  - destruct (tables !! BQ_TABLE_ID cfg) as [t|] eqn:Htbl; repeat world_step;
      destruct (omap (row_error SCHEMA) rows) as [|err errs]; repeat world_step;
      (split; [|reflexivity]); unfold replaced, set_tables; cbn; rewrite Hds; cbn;
      f_equal; rewrite ?insert_insert_eq, ?insert_delete_eq; reflexivity.
  - destruct (omap (row_error SCHEMA) rows) as [|err errs]; repeat world_step;
      (split; [|reflexivity]); unfold replaced, set_tables; cbn; rewrite Hds; cbn;
      f_equal; rewrite ?insert_insert_eq, ?insert_delete_eq; reflexivity.
Qed.

Lemma insert_twice {K V} `{Countable K} (a b : K) (x y : V) (m : gmap K V) :
  <[a := x]> (<[b := y]> (<[a := x]> (<[b := y]> m))) = <[a := x]> (<[b := y]> m).
Proof.
  apply map_eq. intros k.
  destruct (decide (a = k)) as [->|Ha]; [now rewrite !lookup_insert_eq|].
  rewrite !(lookup_insert_ne _ a k) by assumption.
  destruct (decide (b = k)) as [->|Hb]; [now rewrite !lookup_insert_eq|].
  now repeat (rewrite lookup_insert_ne by assumption).
Qed.

Lemma raw_saved_twice w data :
  raw_saved cfg (raw_saved cfg w data) data = raw_saved cfg w data.
Proof. unfold raw_saved. cbn. now rewrite !insert_insert_eq. Qed.

Lemma replaced_twice w data text t :
  replaced cfg (replaced cfg w data text t) data text t = replaced cfg w data text t.
Proof.
  unfold replaced. cbn. rewrite !insert_twice, lookup_insert_eq. cbn.
  now rewrite !insert_insert_eq.
Qed.

(** C5: against services that do what their documentation says, a second
    run on the same answer of the API leaves the files, the two blobs and
    the table as the first run left them and returns the same response; and
    after a run that succeeded the table has the fixed schema and exactly
    the rows of that run, whatever it held before, and the two blobs hold
    the raw answer and the CSV text of those rows. *)
Theorem run_twice_is_run_once w0 :
  let r1 := run (services upstream row_error) (main py_str_container cfg) w0 in
  let r2 := run (services upstream row_error) (main py_str_container cfg) (final r1) in
  final r2 = final r1 /\
  returned r2 = returned r1 /\
  (returned r1 = success ->
   exists data rows text tables,
     response_json upstream = inr data /\
     transform data = inr rows /\
     csv_file py_str_container rows = inr text /\
     datasets (final r1) !! BQ_DATASET_ID cfg = Some tables /\
     tables !! BQ_TABLE_ID cfg = Some (mkTable SCHEMA rows) /\
     blobs (final r1) !! (GCS_BUCKET_NAME cfg, "coursera_response.json")
       = Some (JsonDump data) /\
     blobs (final r1) !! (GCS_BUCKET_NAME cfg, "coursera_courses.csv")
       = Some (CsvText text)).
Proof.
  cbv zeta.
  destruct (status_code upstream =? 200)%Z eqn:Hs.
  2: { destruct (run_bad_status w0 Hs) as [-> Hr].
       destruct (run_bad_status w0 Hs) as [-> ->].
       repeat split. discriminate. }
  destruct (response_json upstream) as [e|data] eqn:Hj.
  { destruct (run_bad_json w0 e Hs Hj) as [-> Hr].
    destruct (run_bad_json w0 e Hs Hj) as [-> ->].
    repeat split. discriminate. }
  destruct (transform data) as [e|rows] eqn:Ht.
  { destruct (run_transform_raises w0 data e Hs Hj Ht) as [-> ->].
    destruct (run_transform_raises (raw_saved cfg w0 data) data e Hs Hj Ht) as [-> ->].
    rewrite raw_saved_twice. repeat split. discriminate. }
  destruct (csv_file py_str_container rows) as [e|text] eqn:Hc.
  { destruct (run_csv_raises w0 data rows e Hs Hj Ht Hc) as [-> ->].
    destruct (run_csv_raises (raw_saved cfg w0 data) data rows e Hs Hj Ht Hc) as [-> ->].
    rewrite raw_saved_twice. repeat split. discriminate. }
  pose proof (run_loads w0 data rows text Hs Hj Ht Hc) as H1.
  destruct (omap (row_error SCHEMA) rows) as [|err errs] eqn:Herr.
  - destruct H1 as [-> ->].
    pose proof (run_loads (replaced cfg w0 data text (mkTable SCHEMA rows))
                  data rows text Hs Hj Ht Hc) as H2.
    rewrite Herr in H2. destruct H2 as [-> ->].
    rewrite replaced_twice. split; [reflexivity|]. split; [reflexivity|].
    intros _. exists data, rows, text. eexists.
    unfold replaced. cbn.
    do 3 (split; [first [reflexivity | assumption]|]).
    split; [apply lookup_insert_eq|]. split; [apply lookup_insert_eq|].
    split; [|apply lookup_insert_eq].
    rewrite lookup_insert_ne by (intros [= ?]).
    apply lookup_insert_eq.
  - destruct H1 as [-> ->].
    pose proof (run_loads (replaced cfg w0 data text (mkTable SCHEMA []))
                  data rows text Hs Hj Ht Hc) as H2.
    rewrite Herr in H2. destruct H2 as [-> ->].
    rewrite replaced_twice. repeat split. discriminate.
Qed.

End Replace.

(** * The scenarios of the spec, run *)

(** One collection with a full entity and a bare one: two rows, the second
    with null in the six optional columns and empty partner strings. *)
Example sample_rows :
  transform sample_document = inr
    [ [ ("collection_label", JStr "Data Science"); ("collection_id", JStr "c1");
        ("course_name", JStr "Machine Learning"); ("course_id", JStr "e1");
        ("slug", JStr "machine-learning"); ("url", JStr "/learn/machine-learning");
        ("image_url", JStr "https://img/e1.png");
        ("partners", JStr "Stanford, DeepLearning.AI"); ("partner_ids", JStr "1, 27");
        ("difficulty_level", JStr "BEGINNER"); ("is_part_of_coursera_plus", JBool true);
        ("course_count", JNum 3); ("is_cost_free", JBool false);
        ("marketing_product_type", JStr "SPECIALIZATION");
        ("is_pathway_content", JBool false) ];
      [ ("collection_label", JStr "Data Science"); ("collection_id", JStr "c1");
        ("course_name", JStr "SQL, for everyone"); ("course_id", JStr "e2");
        ("slug", JStr "sql"); ("url", JStr "/learn/sql");
        ("image_url", JStr "https://img/e2.png");
        ("partners", JStr EmptyString); ("partner_ids", JStr EmptyString);
        ("difficulty_level", JNull); ("is_part_of_coursera_plus", JNull);
        ("course_count", JNull); ("is_cost_free", JNull);
        ("marketing_product_type", JNull); ("is_pathway_content", JNull) ] ].
Proof. reflexivity. Qed.

(** The line of the second row: the name holds a comma and is quoted, the
    null cells are empty. *)
Example bare_entity_line :
  writerow (fun _ => EmptyString)
    [ JStr "Data Science"; JStr "c1"; JStr "SQL, for everyone"; JStr "e2"; JNull; JBool true;
      JNum 3 ]
  = "Data Science,c1," +:+ String quotechar ("SQL, for everyone" +:+ String quotechar
      (",e2,,True,3" +:+ lineterminator)).
Proof. reflexivity. Qed.

(** A null cell and an empty string are written alike. *)
Example null_and_empty_cell py :
  cell py JNull = cell py (JStr EmptyString).
Proof. reflexivity. Qed.

(** A load over a table that holds an old row: the run succeeds and the table
    holds the two rows of the run only. *)
Example stale_table_is_replaced :
  let r := run (services sample_response accept_all)
               (main (fun _ => EmptyString) default_config) stale_world in
  returned r = success /\
  (exists rows, transform sample_document = inr rows /\
                courses_table (final r) = Some (mkTable SCHEMA rows)).
Proof.
  cbv zeta. split; [vm_compute; reflexivity|].
  eexists. split; [exact sample_rows|]. vm_compute. reflexivity.
Qed.

(** BigQuery reports an error for each row: the run fails with the errors;
    in the model, where a refused insert keeps no row, the table is left
    created and empty. *)
Example insert_errors_fail_the_run :
  let r := run (services sample_response reject_all)
               (main (fun _ => EmptyString) default_config) stale_world in
  returned r =
    failure (BigQueryInsertErrors
               [ JObj [("errors", JArr [JObj [("reason", JStr "invalid")]])];
                 JObj [("errors", JArr [JObj [("reason", JStr "invalid")]])] ]) /\
  courses_table (final r) = Some (mkTable SCHEMA []).
Proof. cbv zeta. split; vm_compute; reflexivity. Qed.

(** The dataset is there but its lookup fails: [create_dataset] answers
    "already exists", and that ends the run. *)
Example already_exists_ends_the_run :
  let r := run (with_faults get_unavailable (services sample_response accept_all))
               (main (fun _ => EmptyString) default_config) stale_world in
  In (create_dataset "coursera_data", Raised Conflict) (calls r) /\
  returned r = failure Conflict.
Proof. vm_compute. tauto. Qed.

(** * More on the transform *)

Lemma py_get_inr d key dflt v :
  py_get (JObj d) key dflt = inr v -> v = default dflt (dict_get d key).
Proof. rewrite py_get_dict. now intros [= <-]. Qed.

Lemma make_row_object label cid entity row :
  make_row label cid entity = inr row -> exists d, entity = JObj d.
Proof.
  destruct entity as [| | | | |d]; [discriminate..|]. eauto.
Qed.

(** X1: a row that [make_row] builds comes from an entity that is an object;
    it has the fifteen columns of the header in the order of the header; the
    label and the id are those of the collection; the five required columns
    are the values the entity has under [name], [id], [slug], [url] and
    [imageUrl], whatever their JSON type; and each of the four optional
    scalar columns is the value the entity has under its key (an explicit
    null included), or null when the key is absent. *)
Theorem make_row_copies_fields label cid entity row :
  make_row label cid entity = inr row ->
  exists d,
    entity = JObj d /\
    map fst row = CSV_HEADERS /\
    dict_get row "collection_label" = Some label /\
    dict_get row "collection_id" = Some cid /\
    (dict_get row "course_name" = dict_get d "name") /\
    (dict_get row "course_id" = dict_get d "id") /\
    (dict_get row "slug" = dict_get d "slug") /\
    (dict_get row "url" = dict_get d "url") /\
    (dict_get row "image_url" = dict_get d "imageUrl") /\
    dict_get row "difficulty_level" = Some (default JNull (dict_get d "difficultyLevel")) /\
    dict_get row "is_part_of_coursera_plus"
      = Some (default JNull (dict_get d "isPartOfCourseraPlus")) /\
    dict_get row "course_count" = Some (default JNull (dict_get d "courseCount")) /\
    dict_get row "is_cost_free" = Some (default JNull (dict_get d "isCostFree")).
Proof.
  intros H. destruct (make_row_object _ _ _ _ H) as [d ->]. exists d.
  split; [reflexivity|].
  split; [apply built_row_keys; now exists label, cid, (JObj d)|].
  unfold make_row in H.
  do 7 (apply bindR_inr in H as (? & ?E & H)).
  apply bindR_inr in H as (vname & Ename & H). apply bindR_inr in H as (vid & Eid & H).
  apply bindR_inr in H as (vslug & Eslug & H). apply bindR_inr in H as (vurl & Eurl & H).
  apply bindR_inr in H as (vimg & Eimg & H).
  apply bindR_inr in H as (vdl & Edl & H). apply bindR_inr in H as (vplus & Eplus & H).
  apply bindR_inr in H as (vcount & Ecount & H). apply bindR_inr in H as (vfree & Efree & H).
  do 5 (apply bindR_inr in H as (? & _ & H)).
  apply subscript_inr in Ename, Eid, Eslug, Eurl, Eimg.
  apply py_get_inr in Edl, Eplus, Ecount, Efree. subst.
  injection H as <-. rewrite Ename, Eid, Eslug, Eurl, Eimg.
  repeat split; reflexivity.
Qed.

Lemma make_row_copies_fields_witness :
  exists d,
    JObj (("courseCount", JNull) :: ("id", JNum 7) :: bare_entity) = JObj d /\
    dict_get
      [ ("collection_label", JStr "Data Science"); ("collection_id", JStr "c1");
        ("course_name", JStr "SQL, for everyone"); ("course_id", JNum 7);
        ("slug", JStr "sql"); ("url", JStr "/learn/sql");
        ("image_url", JStr "https://img/e2.png");
        ("partners", JStr EmptyString); ("partner_ids", JStr EmptyString);
        ("difficulty_level", JNull); ("is_part_of_coursera_plus", JNull);
        ("course_count", JNull); ("is_cost_free", JNull);
        ("marketing_product_type", JNull); ("is_pathway_content", JNull) ] "course_id"
    = dict_get d "id".
Proof.
  destruct (make_row_copies_fields (JStr "Data Science") (JStr "c1")
              (JObj (("courseCount", JNull) :: ("id", JNum 7) :: bare_entity))
              [ ("collection_label", JStr "Data Science"); ("collection_id", JStr "c1");
                ("course_name", JStr "SQL, for everyone"); ("course_id", JNum 7);
                ("slug", JStr "sql"); ("url", JStr "/learn/sql");
                ("image_url", JStr "https://img/e2.png");
                ("partners", JStr EmptyString); ("partner_ids", JStr EmptyString);
                ("difficulty_level", JNull); ("is_part_of_coursera_plus", JNull);
                ("course_count", JNull); ("is_cost_free", JNull);
                ("marketing_product_type", JNull); ("is_pathway_content", JNull) ])
    as (d & Hd & _ & _ & _ & _ & Hid & _); [reflexivity|].
  exists d. split; [exact Hd | exact Hid].
Defined.

Lemma mapR_inr_Forall2 {A B} (f : A -> result B) (l : list A) (l' : list B) :
  mapR f l = inr l' -> Forall2 (fun x y => f x = inr y) l l'.
Proof.
  revert l'. induction l as [|x l IH]; simpl; intros l' H.
  - injection H as <-. constructor.
  - apply bindR_inr in H as (y & Hy & H). apply bindR_inr in H as (ys & Hys & H).
    injection H as <-. constructor; [exact Hy | now apply IH].
Qed.

Lemma str_join_inr sep items s :
  str_join sep items = inr s ->
  exists strs, items = map JStr strs /\ s = join sep strs.
Proof.
  unfold str_join. intros H. apply bindR_inr in H as (strs & Hstrs & H).
  injection H as <-. exists strs. split; [|reflexivity].
  apply mapR_inr_Forall2 in Hstrs.
  induction Hstrs as [|v s items strs Hv _ IH]; [reflexivity|].
  simpl. rewrite <- IH. destruct v; try discriminate. now injection Hv as ->.
Qed.

(** X2: in any row that [make_row] builds, [partners] is the join with a
    comma and a space of the [name] of each thing the iteration over
    [entity["partners"]] yields, in that order, and [partner_ids] the join of
    what the iteration over [entity["partnerIds"]] yields, all of them
    strings; so a string given for [partnerIds] does not raise: it is joined
    character by character. *)
Theorem built_row_partner_columns label cid d row :
  make_row label cid (JObj d) = inr row ->
  exists vp ps names vi ids,
    dict_get d "partners" = Some vp /\
    py_iter vp = inr ps /\
    Forall2 partner_name ps names /\
    dict_get row "partners" = Some (JStr (join ", " names)) /\
    dict_get d "partnerIds" = Some vi /\
    py_iter vi = inr (map JStr ids) /\
    dict_get row "partner_ids" = Some (JStr (join ", " ids)).
Proof.
  intros H. unfold make_row in H.
  apply bindR_inr in H as (vp & Evp & H). apply bindR_inr in H as (ps & Eps & H).
  apply bindR_inr in H as (vs & Evs & H). apply bindR_inr in H as (partners & Ejoin & H).
  apply bindR_inr in H as (vi & Evi & H). apply bindR_inr in H as (ids & Eids & H).
  apply bindR_inr in H as (partner_ids & Ejoin' & H).
  do 14 (apply bindR_inr in H as (? & _ & H)). injection H as <-.
  apply subscript_inr in Evp, Evi.
  apply str_join_inr in Ejoin as (names & -> & ->).
  apply str_join_inr in Ejoin' as (strs & -> & ->).
  exists vp, ps, names, vi, strs.
  repeat split; try assumption; try reflexivity.
  apply mapR_inr_Forall2 in Evs. clear -Evs.
  remember (map JStr names) as vs eqn:Hvs. revert names Hvs.
  induction Evs as [|p v ps vs Hp _ IH]; intros [|n names] Hvs; try discriminate.
  - constructor.
  - injection Hvs as -> ->. constructor; [exact Hp | now apply IH].
Qed.

Lemma built_row_partner_columns_witness :
  exists vp ps names vi ids,
    dict_get [ ("partners", JArr []); ("partnerIds", JStr "ab"); ("name", JNull); ("id", JNull);
               ("slug", JNull); ("url", JNull); ("imageUrl", JNull) ] "partners" = Some vp /\
    py_iter vp = inr ps /\
    Forall2 partner_name ps names /\
    dict_get
      [ ("collection_label", JNull); ("collection_id", JNull); ("course_name", JNull);
        ("course_id", JNull); ("slug", JNull); ("url", JNull); ("image_url", JNull);
        ("partners", JStr EmptyString); ("partner_ids", JStr "a, b");
        ("difficulty_level", JNull); ("is_part_of_coursera_plus", JNull);
        ("course_count", JNull); ("is_cost_free", JNull);
        ("marketing_product_type", JNull); ("is_pathway_content", JNull) ] "partners"
      = Some (JStr (join ", " names)) /\
    dict_get [ ("partners", JArr []); ("partnerIds", JStr "ab"); ("name", JNull); ("id", JNull);
               ("slug", JNull); ("url", JNull); ("imageUrl", JNull) ] "partnerIds" = Some vi /\
    py_iter vi = inr (map JStr ids) /\
    dict_get
      [ ("collection_label", JNull); ("collection_id", JNull); ("course_name", JNull);
        ("course_id", JNull); ("slug", JNull); ("url", JNull); ("image_url", JNull);
        ("partners", JStr EmptyString); ("partner_ids", JStr "a, b");
        ("difficulty_level", JNull); ("is_part_of_coursera_plus", JNull);
        ("course_count", JNull); ("is_cost_free", JNull);
        ("marketing_product_type", JNull); ("is_pathway_content", JNull) ] "partner_ids"
      = Some (JStr (join ", " ids)).
Proof.
  apply (built_row_partner_columns JNull JNull
           [ ("partners", JArr []); ("partnerIds", JStr "ab"); ("name", JNull); ("id", JNull);
             ("slug", JNull); ("url", JNull); ("imageUrl", JNull) ]).
  reflexivity.
Defined.

(** X3: an entity whose [productCard] is an object with a null
    [productTypeAttributes] gives no row: [make_row] raises, and when the
    required keys are there the exception is the [AttributeError] of calling
    [get] on [None] (the default object is used for an absent key only). *)
Theorem null_product_type_attributes_raises label cid d pc :
  dict_get d "productCard" = Some (JObj pc) ->
  dict_get pc "productTypeAttributes" = Some JNull ->
  (exists err, make_row label cid (JObj d) = inl err) /\
  (valid_required d = true -> make_row label cid (JObj d) = inl AttributeError).
Proof.
  intros Hpc Hattrs.
  assert (forall k, optional_part d k = inl AttributeError) as Hopt.
  { intros k. unfold optional_part. rewrite !py_get_dict, Hpc.
    cbn [default from_option Datatypes.id bindR]. rewrite !py_get_dict, Hattrs.
    reflexivity. }
  split.
  - unfold make_row.
    repeat match goal with
           | |- exists err, bindR (py_get _ _ _) _ = inl err => fail 1
           | |- exists err, bindR ?m _ = inl err =>
               destruct m as [?e|?x]; cbn [bindR]; [eexists; reflexivity|]
           end.
    rewrite !py_get_dict. cbn [bindR]. rewrite Hpc.
    cbn [default from_option Datatypes.id bindR]. rewrite !py_get_dict, Hattrs.
    cbn. eauto.
  - intros Hreq.
    destruct (make_row_required label cid d Hreq)
      as (ps & names & ids & cn & ci & sl & ur & im & _ & _ & _ & _ & _ & ->).
    apply Hopt.
Qed.

Lemma null_product_type_attributes_raises_witness :
  make_row (JStr "Data Science") (JStr "c1")
    (JObj (("productCard", JObj [("productTypeAttributes", JNull)]) :: bare_entity))
  = inl AttributeError.
Proof.
  apply (null_product_type_attributes_raises (JStr "Data Science") (JStr "c1")
           (("productCard", JObj [("productTypeAttributes", JNull)]) :: bare_entity)
           [("productTypeAttributes", JNull)]); reflexivity.
Defined.

Lemma Forall2_mapR {A B} (f : A -> result B) (l : list A) (l' : list B) :
  Forall2 (fun x y => f x = inr y) l l' -> mapR f l = inr l'.
Proof.
  induction 1 as [|x y l l' Hx _ IH]; simpl; [reflexivity|].
  rewrite Hx. simpl. now rewrite IH.
Qed.

Lemma str_join_not_str sep items :
  Exists (fun v => is_str v = false) items -> str_join sep items = inl TypeError.
Proof.
  unfold str_join. intros H.
  assert (mapR as_str items = inl TypeError) as ->; [|reflexivity].
  induction H as [v items Hv | v items _ IH]; simpl.
  - destruct v; try reflexivity. discriminate.
  - destruct v; try reflexivity. simpl. now rewrite IH.
Qed.

(** X4: when every partner of the list has a [name] but one of the names is
    not a string (a null, say), [make_row] raises the [TypeError] of [join],
    whatever else the entity holds. *)
Theorem non_string_partner_name_raises label cid d ps vs :
  dict_get d "partners" = Some (JArr ps) ->
  Forall2 (fun p v => subscript p "name" = inr v) ps vs ->
  Exists (fun v => is_str v = false) vs ->
  make_row label cid (JObj d) = inl TypeError.
Proof.
  intros Hps Hvs Hbad. unfold make_row. cbn [subscript]. rewrite Hps.
  cbn [bindR py_iter]. rewrite (Forall2_mapR _ _ _ Hvs). cbn [bindR].
  now rewrite (str_join_not_str _ _ Hbad).
Qed.

Lemma non_string_partner_name_raises_witness :
  make_row (JStr "Data Science") (JStr "c1")
    (JObj (("partners", JArr [JObj [("name", JStr "Stanford")]; JObj [("name", JNull)]])
           :: bare_entity))
  = inl TypeError.
Proof.
  apply (non_string_partner_name_raises (JStr "Data Science") (JStr "c1")
           (("partners", JArr [JObj [("name", JStr "Stanford")]; JObj [("name", JNull)]])
            :: bare_entity)
           [JObj [("name", JStr "Stanford")]; JObj [("name", JNull)]]
           [JStr "Stanford"; JNull]).
  - reflexivity.
  - repeat constructor.
  - right. left. reflexivity.
Defined.

(** X5: the exception of the loop over a collection is the exception of the
    first entity, in the order of the list, on which [make_row] raises; the
    entities after it are not looked at, and no row is returned. *)
Theorem first_failing_entity_is_reported label cid before entity after err acc :
  Forall (fun e => exists row, make_row label cid e = inr row) before ->
  make_row label cid entity = inl err ->
  loop_entities label cid (before ++ entity :: after) acc = inl err.
Proof.
  intros Hbefore Herr. revert acc.
  induction Hbefore as [|e before [row Hrow] _ IH]; intros acc; simpl.
  - now rewrite Herr.
  - rewrite Hrow. cbn [bindR]. apply IH.
Qed.

Lemma first_failing_entity_is_reported_witness :
  loop_entities (JStr "Data Science") (JStr "c1")
    ([JObj full_entity] ++ JObj [("partners", JArr [])] :: [JNull]) []
  = inl (KeyError (JStr "partnerIds")).
Proof.
  apply (first_failing_entity_is_reported (JStr "Data Science") (JStr "c1")
           [JObj full_entity] (JObj [("partners", JArr [])]) [JNull]).
  - constructor; [|constructor]. eexists. reflexivity.
  - reflexivity.
Defined.

Lemma loop_entities_inv label cid es :
  forall acc out, loop_entities label cid es acc = inr out ->
  exists rows, out = acc ++ rows /\
               Forall2 (fun row e => make_row label cid e = inr row) rows es.
Proof.
  induction es as [|e es IH]; simpl; intros acc out H.
  - injection H as <-. exists []. split; [now rewrite app_nil_r | constructor].
  - apply bindR_inr in H as (row & Hrow & H).
    destruct (IH _ _ H) as (rows & -> & Hrows).
    exists (row :: rows). split; [now rewrite <- app_assoc | now constructor].
Qed.

(** An iteration that yields objects only is the iteration over a list: the
    characters of a string and the keys of a dict are strings. *)
Lemma py_iter_objects v es :
  py_iter v = inr es ->
  Forall (fun e => exists d, e = JObj d) es ->
  es = match v with JArr l => l | _ => [] end.
Proof.
  destruct v as [| | |s|l|d]; simpl; intros H Hobj; try discriminate;
    injection H as <-.
  - destruct s; [reflexivity|]. simpl in Hobj. inversion Hobj as [|? ? [d Hd] _].
    discriminate Hd.
  - reflexivity.
  - destruct d; [reflexivity|]. simpl in Hobj. inversion Hobj as [|? ? [d' Hd] _].
    discriminate Hd.
Qed.

Lemma subscript_object obj key v : subscript obj key = inr v -> exists d, obj = JObj d.
Proof. destruct obj; try discriminate. eauto. Qed.

Lemma loop_collections_inv cs :
  forall acc out, loop_collections cs acc = inr out ->
  Forall (fun c => exists d, c = JObj d) cs /\
  exists rows, out = acc ++ rows /\
               Forall2 row_of_pair rows
                 (flat_map (fun c => map (fun e => (c, e)) (entities_of c)) cs).
Proof.
  induction cs as [|c cs IH]; simpl; intros acc out H.
  - injection H as <-. split; [constructor|].
    exists []. split; [now rewrite app_nil_r | constructor].
  - apply bindR_inr in H as (label & El & H). apply bindR_inr in H as (cid & Ei & H).
    apply bindR_inr in H as (ents & Ee & H). apply bindR_inr in H as (es & Eit & H).
    apply bindR_inr in H as (acc' & Hacc' & H).
    destruct (loop_entities_inv _ _ _ _ _ Hacc') as (rows1 & -> & Hrows1).
    destruct (IH _ _ H) as (Hobj & rows2 & -> & Hrows2).
    split; [constructor; [exact (subscript_object _ _ _ El) | exact Hobj]|].
    exists (rows1 ++ rows2). split; [now rewrite <- app_assoc|].
    apply Forall2_app; [|exact Hrows2].
    assert (entities_of c = es) as ->.
    { unfold entities_of. rewrite Ee. symmetry.
      rewrite (py_iter_objects ents es Eit); [now destruct ents|].
      clear -Hrows1. induction Hrows1 as [|row e rows es Hrow _ IHr]; constructor;
        [exact (make_row_object _ _ _ _ Hrow) | exact IHr]. }
    clear -Hrows1 El Ei. induction Hrows1 as [|row e rows es Hrow _ IHr]; simpl.
    + constructor.
    + constructor; [|exact IHr]. exists label, cid. auto.
Qed.

(** X6: whenever the transform returns rows, for any document and not only
    one of the data model, it returns exactly one row per (Collection,
    Entity) pair of the document, in the order of the pairs: there is no
    document on which it skips, repeats or reorders an entity. *)
Theorem transform_rows_are_pairs data rows :
  transform data = inr rows ->
  Forall2 row_of_pair rows (pairs data) /\
  length rows = sum_list (map (fun c => length (entities_of c)) (collections_of data)).
Proof.
  unfold transform, pairs, collections_of. intros H.
  apply bindR_inr in H as (collections & -> & H).
  apply bindR_inr in H as (cs & Eit & H).
  destruct (loop_collections_inv _ _ _ H) as (Hobj & rows' & -> & Hrows).
  rewrite (py_iter_objects _ _ Eit Hobj) in Hrows.
  simpl app.
  assert (Forall2 row_of_pair rows'
            (flat_map (fun c => map (fun e => (c, e)) (entities_of c))
               match collections with JArr cs0 => cs0 | _ => [] end)) as Hp.
  { now destruct collections. }
  split.
  - now destruct collections.
  - rewrite (Forall2_length _ _ _ Hp), length_pairs. now destruct collections.
Qed.

Lemma transform_rows_are_pairs_witness :
  Forall2 row_of_pair sample_document_rows
    [(sample_collection, JObj full_entity); (sample_collection, JObj bare_entity)] /\
  length sample_document_rows = sum_list [2].
Proof.
  apply (transform_rows_are_pairs sample_document sample_document_rows).
  reflexivity.
Defined.



Lemma loop_entities_acc label cid es acc :
  loop_entities label cid es acc =
  let* rows := loop_entities label cid es [] in inr (acc ++ rows).
Proof.
  revert acc. induction es as [|e es IH]; intros acc; simpl.
  - now rewrite app_nil_r.
  - destruct (make_row label cid e) as [err|row]; [reflexivity|]. cbn [bindR].
    rewrite (IH (acc ++ [row])), (IH [row]).
    destruct (loop_entities label cid es []) as [err|rows]; [reflexivity|].
    simpl. now rewrite <- app_assoc.
Qed.

Lemma loop_collections_acc cs acc :
  loop_collections cs acc =
  let* rows := loop_collections cs [] in inr (acc ++ rows).
Proof.
  revert acc. induction cs as [|c cs IH]; intros acc; simpl.
  - now rewrite app_nil_r.
  - destruct (subscript c "label") as [err|label]; [reflexivity|]. cbn [bindR].
    destruct (subscript c "id") as [err|cid]; [reflexivity|]. cbn [bindR].
    destruct (subscript c "entities") as [err|ents]; [reflexivity|]. cbn [bindR].
    destruct (py_iter ents) as [err|es]; [reflexivity|]. cbn [bindR].
    rewrite (loop_entities_acc label cid es acc).
    destruct (loop_entities label cid es []) as [err|rows1]; [reflexivity|].
    cbn [bindR]. rewrite (IH (acc ++ rows1)), (IH rows1).
    destruct (loop_collections cs []) as [err|rows2]; [reflexivity|].
    simpl. now rewrite <- app_assoc.
Qed.

(** X8: the rows of a list of collections are the rows of its first part
    followed by the rows of the rest: a collection's rows do not depend on
    the collections before it, and an exception in the first part is the
    exception of the whole. *)
Theorem loop_collections_app cs1 cs2 :
  loop_collections (cs1 ++ cs2) [] =
  let* rows1 := loop_collections cs1 [] in
  let* rows2 := loop_collections cs2 [] in
  inr (rows1 ++ rows2).
Proof.
  assert (forall acc, loop_collections (cs1 ++ cs2) acc =
                      let* acc' := loop_collections cs1 acc in loop_collections cs2 acc')
    as Happ.
  { induction cs1 as [|c cs1 IH]; intros acc; simpl; [reflexivity|].
    destruct (subscript c "label") as [err|label]; [reflexivity|]. cbn [bindR].
    destruct (subscript c "id") as [err|cid]; [reflexivity|]. cbn [bindR].
    destruct (subscript c "entities") as [err|ents]; [reflexivity|]. cbn [bindR].
    destruct (py_iter ents) as [err|es]; [reflexivity|]. cbn [bindR].
    destruct (loop_entities label cid es acc) as [err|acc']; [reflexivity|].
    cbn [bindR]. apply IH. }
  rewrite Happ.
  destruct (loop_collections cs1 []) as [err|rows1]; [reflexivity|]. cbn [bindR].
  apply loop_collections_acc.
Qed.

(** * More on the run *)

Ltac same_entry :=
  repeat match goal with
         | H : Some _ = Some _ |- _ => injection H as H
         | H : (_, _) = (_, _) |- _ => injection H; clear H; intros; subst
         | H : ReturnedResponse _ = ReturnedResponse _ |- _ => injection H as H; subst
         | H : Raised _ = Raised _ |- _ => injection H as H; subst
         end.

(** Two names for what one expression returned are one value. *)
Ltac same_answer :=
  repeat match goal with
         | H : inr _ = inr _ |- _ => injection H as H; subst
         | H : inl _ = inl _ |- _ => injection H as H; subst
         | H1 : ?x = inr ?a, H2 : ?x = inr ?b |- _ =>
             assert_fails (constr_eq a b);
             assert (a = b) by congruence; subst
         end.

(** X9: when the fetch raises, when the API answers with a status other
    than 200, or when its body is not JSON, the fetch is the only call of the
    run: no file is written, nothing is uploaded, BigQuery is not touched,
    and the response is the failure of that exception (for the status,
    the exception that carries the status code). *)
Theorem fetch_failure_touches_nothing {W} (h : handler W) py cfg w :
  let r := run h (main py cfg) w in
  (forall e, head (calls r) = Some (requests_post URL, Raised e) ->
     calls r = [(requests_post URL, Raised e)] /\ returned r = failure e) /\
  (forall resp, head (calls r) = Some (requests_post URL, ReturnedResponse resp) ->
     (status_code resp =? 200)%Z = false ->
     calls r = [(requests_post URL, ReturnedResponse resp)] /\
     returned r = failure (ApiRequestFailed (status_code resp))) /\
  (forall resp e, head (calls r) = Some (requests_post URL, ReturnedResponse resp) ->
     (status_code resp =? 200)%Z = true ->
     response_json resp = inl e ->
     calls r = [(requests_post URL, ReturnedResponse resp)] /\ returned r = failure e).
Proof.
  run_cases h; cbv zeta;
    repeat match goal with |- _ /\ _ => split end;
    intros; cbn [head] in *; try discriminate; same_entry; subst; unfold failure;
    try congruence; try (split; congruence).
Qed.

(** X10: the raw answer is saved before the transform runs: when the
    transform raises and the upload of the raw file has returned, the run is
    the fetch, the write of the raw file and its upload, and nothing else
    (no CSV file, no call to BigQuery), and the response is the failure of
    the exception of the transform. *)
Theorem transform_failure_keeps_raw_only {W} (h : handler W) py cfg w resp data e :
  let r := run h (main py cfg) w in
  head (calls r) = Some (requests_post URL, ReturnedResponse resp) ->
  (status_code resp =? 200)%Z = true ->
  response_json resp = inr data ->
  transform data = inl e ->
  In (upload_to_gcs (GCS_BUCKET_NAME cfg) "/tmp/coursera_response.json"
        "coursera_response.json", Returned) (calls r) ->
  calls r =
    [ (requests_post URL, ReturnedResponse resp);
      (write_file "/tmp/coursera_response.json" (JsonDump data), Returned);
      (upload_to_gcs (GCS_BUCKET_NAME cfg) "/tmp/coursera_response.json"
         "coursera_response.json", Returned) ] /\
  returned r = failure e.
Proof.
  run_cases h; cbv zeta; intros Hhead Hs Hj Ht Hin;
    cbn [head] in Hhead; try discriminate Hhead; same_entry; subst;
    try congruence; find_entry Hin; unfold failure; split; congruence.
Qed.

Lemma transform_failure_keeps_raw_only_witness :
  calls (run (services empty_response accept_all) (main (fun _ => EmptyString) default_config)
           empty_world) =
    [ (requests_post URL, ReturnedResponse empty_response);
      (write_file "/tmp/coursera_response.json" (JsonDump (JArr [])), Returned);
      (upload_to_gcs "gcstestbuckethb" "/tmp/coursera_response.json"
         "coursera_response.json", Returned) ] /\
  returned (run (services empty_response accept_all)
              (main (fun _ => EmptyString) default_config) empty_world)
    = failure IndexError.
Proof.
  apply (transform_failure_keeps_raw_only (services empty_response accept_all)
           (fun _ => EmptyString) default_config empty_world empty_response (JArr [])
           IndexError).
  - reflexivity.
  - reflexivity.
  - reflexivity.
  - reflexivity.
  - vm_compute. tauto.
Defined.

(** X11: BigQuery is called only once both files are saved: a run whose log
    holds a call to BigQuery (the client, the dataset, the table, the insert)
    started with the fetch, the writes and the uploads of the raw file and of
    the CSV file of the rows of the transform, all five of which returned.
    So a run that fails in the fetch, the transform or an upload leaves the
    table as it was. *)
Theorem bigquery_only_after_uploads {W} (h : handler W) py cfg w c o :
  let r := run h (main py cfg) w in
  In (c, o) (calls r) ->
  is_bigquery c = true ->
  exists resp data rows text,
    response_json resp = inr data /\
    transform data = inr rows /\
    csv_file py rows = inr text /\
    take 5 (calls r) = published cfg resp data text.
Proof.
  run_cases h; cbv zeta; intros Hin Hbq; pick_entry Hin; try discriminate Hbq;
    eexists _, _, _, _; repeat split; try eassumption; reflexivity.
Qed.

Lemma bigquery_only_after_uploads_witness :
  exists resp data rows text,
    response_json resp = inr data /\
    transform data = inr rows /\
    csv_file (fun _ => EmptyString) rows = inr text /\
    take 5 (calls (run (services sample_response accept_all)
                     (main (fun _ => EmptyString) default_config) empty_world))
      = published default_config resp data text.
Proof.
  apply (bigquery_only_after_uploads (services sample_response accept_all)
           (fun _ => EmptyString) default_config empty_world
           (create_table "coursera_data" "courses" SCHEMA) Returned).
  - vm_compute. tauto.
  - reflexivity.
Defined.

(** X12: an exception of any call other than the two in a [try] block (the
    fetch, a file write, an upload, the BigQuery client, [create_dataset],
    [create_table], the insert) ends the run at that call: it is the last
    call of the log and the response is the failure of that exception. *)
Theorem call_failure_ends_run {W} (h : handler W) py cfg w c e :
  let r := run h (main py cfg) w in
  In (c, Raised e) (calls r) ->
  in_try c = false ->
  last (calls r) = Some (c, Raised e) /\ returned r = failure e.
Proof.
  run_cases h; cbv zeta; intros Hin Htry; find_entry Hin;
    injection Hin; intros; subst; try discriminate Htry; split; reflexivity.
Qed.

Lemma call_failure_ends_run_witness :
  last (calls (run (with_faults create_table_forbidden (services sample_response accept_all))
                 (main (fun _ => EmptyString) default_config) stale_world))
    = Some (create_table "coursera_data" "courses" SCHEMA, Raised Forbidden) /\
  returned (run (with_faults create_table_forbidden (services sample_response accept_all))
              (main (fun _ => EmptyString) default_config) stale_world)
    = failure Forbidden.
Proof.
  apply (call_failure_ends_run
           (with_faults create_table_forbidden (services sample_response accept_all))
           (fun _ => EmptyString) default_config stale_world
           (create_table "coursera_data" "courses" SCHEMA) Forbidden).
  - vm_compute. tauto.
  - reflexivity.
Defined.

(** X13: a run answers success only when every step was taken and none
    failed outside the two [try] blocks: the API answered 200 with a
    document the transform turned into rows, the five calls that save the
    two files returned, the client was made, the dataset was found or else
    created, the delete was attempted (whatever came of it), the table was
    created with the fixed schema, and the insert of all the rows, the last
    call, reported no error. *)
Theorem success_runs_every_step {W} (h : handler W) py cfg w :
  let r := run h (main py cfg) w in
  returned r = success ->
  exists resp data rows text o,
    (status_code resp =? 200)%Z = true /\
    response_json resp = inr data /\
    transform data = inr rows /\
    csv_file py rows = inr text /\
    (calls r =
       published cfg resp data text
       ++ [(bigquery_Client, Returned); (get_dataset (BQ_DATASET_ID cfg), Returned)]
       ++ loaded cfg rows o
     \/ exists e,
       calls r =
         published cfg resp data text
         ++ [(bigquery_Client, Returned); (get_dataset (BQ_DATASET_ID cfg), Raised e);
             (create_dataset (BQ_DATASET_ID cfg), Returned)]
         ++ loaded cfg rows o).
Proof.
  run_cases h; cbv zeta; intros Hret; try discriminate Hret;
    eexists _, _, _, _, _; repeat split; try eassumption;
    first [left; reflexivity | right; eexists; reflexivity].
Qed.

Lemma success_runs_every_step_witness :
  exists resp data rows text o,
    (status_code resp =? 200)%Z = true /\
    response_json resp = inr data /\
    transform data = inr rows /\
    csv_file (fun _ => EmptyString) rows = inr text /\
    (calls (run (services sample_response accept_all)
              (main (fun _ => EmptyString) default_config) empty_world) =
       published default_config resp data text
       ++ [(bigquery_Client, Returned); (get_dataset "coursera_data", Returned)]
       ++ loaded default_config rows o
     \/ exists e,
       calls (run (services sample_response accept_all)
                (main (fun _ => EmptyString) default_config) empty_world) =
         published default_config resp data text
         ++ [(bigquery_Client, Returned); (get_dataset "coursera_data", Raised e);
             (create_dataset "coursera_data", Returned)]
         ++ loaded default_config rows o).
Proof.
  apply (success_runs_every_step (services sample_response accept_all)
           (fun _ => EmptyString) default_config empty_world).
  vm_compute. reflexivity.
Defined.

Section Faults.

Variable upstream : response.
Variable row_error : list SchemaField -> pydict -> option json.
Variable py_str_container : json -> string.
Variable cfg : config.
Variable fault : call -> option pyerr.

Ltac fault_step :=
  lazymatch goal with
  | |- returned _ = _ -> _ => idtac
  end;
  first
    [ match goal with
      | |- context [fault ?c] => destruct (fault c) as [?e|] eqn:?Hfault
      end
    | match goal with
      | |- context [negb (?s =? 200)%Z] => destruct (s =? 200)%Z eqn:?Hstatus
      | |- context [match response_json upstream with inl _ => _ | inr _ => _ end] =>
          destruct (response_json upstream) as [?e|?data] eqn:?Hjson
      | |- context [match transform ?d with inl _ => _ | inr _ => _ end] =>
          destruct (transform d) as [?e|?rows] eqn:?Htransform
      | |- context [match csv_file ?p ?d with inl _ => _ | inr _ => _ end] =>
          destruct (csv_file p d) as [?e|?text] eqn:?Hcsv
      | |- context [match ?m !! ?k with Some _ => _ | None => _ end] =>
          destruct (m !! k) eqn:?Hlookup
      | |- context [match omap ?f ?l with [] => _ | _ :: _ => _ end] =>
          destruct (omap f l) as [|?err ?errs] eqn:?Herr
      end ];
  cbn -[transform csv_file In];
  rewrite ?lookup_insert_eq, ?lookup_delete_eq, ?lookup_empty;
  repeat match goal with
         | H : ?m !! ?k = _ |- context [?m !! ?k] => rewrite H
         end;
  cbn -[transform csv_file In];
  try (solve [intros Hret; discriminate Hret]).

(** X14: swallowing the exception of the delete cannot leave old rows
    behind a success. Against the services of the model, with any set of
    calls made to fail: when the run answers success, the table has the fixed
    schema and exactly the rows of this run, whatever it held before, and the
    two blobs hold the raw answer and the CSV text of those rows. (A delete
    that failed on a table that is there makes [create_table] raise
    "already exists", which ends the run.) *)
Theorem success_means_table_replaced w0 :
  let r := run (with_faults fault (services upstream row_error))
               (main py_str_container cfg) w0 in
  returned r = success ->
  exists data rows text tables,
    response_json upstream = inr data /\
    transform data = inr rows /\
    csv_file py_str_container rows = inr text /\
    datasets (final r) !! BQ_DATASET_ID cfg = Some tables /\
    tables !! BQ_TABLE_ID cfg = Some (mkTable SCHEMA rows) /\
    blobs (final r) !! (GCS_BUCKET_NAME cfg, "coursera_response.json")
      = Some (JsonDump data) /\
    blobs (final r) !! (GCS_BUCKET_NAME cfg, "coursera_courses.csv")
      = Some (CsvText text).
Proof.
  cbv zeta. unfold main, pipeline, with_faults. cbn -[transform csv_file In].
  repeat fault_step;
    intros _; exists data, rows, text; eexists;
    (do 4 (split; [first [reflexivity | assumption]|]));
    (split; [apply lookup_insert_eq|]);
    (split; [|reflexivity]);
    (rewrite lookup_insert_ne by (intros [= ?]));
    apply lookup_insert_eq.
Qed.

End Faults.

Lemma success_means_table_replaced_witness :
  exists data rows text tables,
    response_json sample_response = inr data /\
    transform data = inr rows /\
    csv_file (fun _ => EmptyString) rows = inr text /\
    datasets (final (run (with_faults get_unavailable (services sample_response accept_all))
                       (main (fun _ => EmptyString) default_config) empty_world))
      !! "coursera_data" = Some tables /\
    tables !! "courses" = Some (mkTable SCHEMA rows) /\
    blobs (final (run (with_faults get_unavailable (services sample_response accept_all))
                    (main (fun _ => EmptyString) default_config) empty_world))
      !! ("gcstestbuckethb", "coursera_response.json") = Some (JsonDump data) /\
    blobs (final (run (with_faults get_unavailable (services sample_response accept_all))
                    (main (fun _ => EmptyString) default_config) empty_world))
      !! ("gcstestbuckethb", "coursera_courses.csv") = Some (CsvText text).
Proof.
  apply (success_means_table_replaced sample_response accept_all (fun _ => EmptyString)
           default_config get_unavailable empty_world).
  vm_compute. reflexivity.
Defined.

(** X15: the replace has no rollback. Whatever the services do, when the
    bulk insert reports an error for some row, the run is the five calls that
    save the two files, the client, the dataset step, and then the delete of
    the table (whatever came of it), the creation of the table with the
    fixed schema, which returned, and the insert, in that order: the old
    table was dropped and the new one created before the rows were offered,
    the insert is the last call, so nothing is restored, deleted or retried
    after it, and the response is the failure that carries the errors. *)
Theorem failed_load_is_not_rolled_back {W} (h : handler W) py cfg w rows errors :
  let r := run h (main py cfg) w in
  In (insert_rows_json (BQ_DATASET_ID cfg) (BQ_TABLE_ID cfg) rows, ReturnedErrors errors)
     (calls r) ->
  errors <> [] ->
  returned r = failure (BigQueryInsertErrors errors) /\
  exists resp data text o,
    response_json resp = inr data /\
    transform data = inr rows /\
    csv_file py rows = inr text /\
    (calls r =
       published cfg resp data text
       ++ [(bigquery_Client, Returned); (get_dataset (BQ_DATASET_ID cfg), Returned)]
       ++ refused cfg rows o errors
     \/ exists e,
       calls r =
         published cfg resp data text
         ++ [(bigquery_Client, Returned); (get_dataset (BQ_DATASET_ID cfg), Raised e);
             (create_dataset (BQ_DATASET_ID cfg), Returned)]
         ++ refused cfg rows o errors).
Proof.
  run_cases h; cbv zeta; intros Hin Hne; find_entry Hin;
    injection Hin; intros; subst; try congruence; once same_answer;
    (split; [reflexivity|]);
    eexists _, _, _, _; repeat split; try eassumption;
    first [reflexivity | left; reflexivity | right; eexists; reflexivity].
Qed.

(** A table that holds an old row, and a BigQuery that refuses both rows of
    the sample document. *)
Lemma failed_load_is_not_rolled_back_witness :
  returned (run (services sample_response reject_all)
              (main (fun _ => EmptyString) default_config) stale_world)
    = failure (BigQueryInsertErrors
                 [ JObj [("errors", JArr [JObj [("reason", JStr "invalid")]])];
                   JObj [("errors", JArr [JObj [("reason", JStr "invalid")]])] ]) /\
  exists resp data text o,
    response_json resp = inr data /\
    transform data = inr sample_document_rows /\
    csv_file (fun _ => EmptyString) sample_document_rows = inr text /\
    (calls (run (services sample_response reject_all)
              (main (fun _ => EmptyString) default_config) stale_world) =
       published default_config resp data text
       ++ [(bigquery_Client, Returned); (get_dataset "coursera_data", Returned)]
       ++ refused default_config sample_document_rows o
            [ JObj [("errors", JArr [JObj [("reason", JStr "invalid")]])];
              JObj [("errors", JArr [JObj [("reason", JStr "invalid")]])] ]
     \/ exists e,
       calls (run (services sample_response reject_all)
                (main (fun _ => EmptyString) default_config) stale_world) =
         published default_config resp data text
         ++ [(bigquery_Client, Returned); (get_dataset "coursera_data", Raised e);
             (create_dataset "coursera_data", Returned)]
         ++ refused default_config sample_document_rows o
              [ JObj [("errors", JArr [JObj [("reason", JStr "invalid")]])];
                JObj [("errors", JArr [JObj [("reason", JStr "invalid")]])] ]).
Proof.
  apply (failed_load_is_not_rolled_back (services sample_response reject_all)
           (fun _ => EmptyString) default_config stale_world).
  - vm_compute. tauto.
  - discriminate.
Defined.

(** X16: [label], [id] and [entities] are required keys of a collection, read
    in that order before any of its entities: a collection object without
    [label] makes the loop raise [KeyError] of [label]; one with [label] and
    without [id], [KeyError] of [id]; one with both and without [entities],
    [KeyError] of [entities]; whatever else the collection holds, whatever
    follows it, and the rows gathered so far are not returned. *)
Theorem collection_keys_are_required d rest acc :
  (dict_get d "label" = None ->
   loop_collections (JObj d :: rest) acc = inl (KeyError (JStr "label"))) /\
  (has_key d "label" = true ->
   dict_get d "id" = None ->
   loop_collections (JObj d :: rest) acc = inl (KeyError (JStr "id"))) /\
  (has_key d "label" = true ->
   has_key d "id" = true ->
   dict_get d "entities" = None ->
   loop_collections (JObj d :: rest) acc = inl (KeyError (JStr "entities"))).
Proof.
  unfold has_key. cbn [loop_collections subscript].
  split; [|split].
  - intros ->. reflexivity.
  - destruct (dict_get d "label"); [|discriminate]. intros _ ->. reflexivity.
  - destruct (dict_get d "label"); [|discriminate].
    destruct (dict_get d "id"); [|discriminate]. intros _ _ ->. reflexivity.
Qed.

(** A collection with nothing but entities, after a row has been gathered
    and before another collection: [label] is reported, not [id]; one with a
    label only: [id] is reported, not [entities]; one without entities. *)
Lemma collection_keys_are_required_witness :
  loop_collections [JObj [("entities", JArr [JNull])]; JNull] [[("course_id", JStr "e0")]]
    = inl (KeyError (JStr "label")) /\
  loop_collections [JObj [("label", JStr "Data Science")]] [] = inl (KeyError (JStr "id")) /\
  loop_collections [JObj [("id", JStr "c1"); ("label", JStr "Data Science")]] []
    = inl (KeyError (JStr "entities")).
Proof.
  split; [|split].
  - apply (proj1 (collection_keys_are_required
                    [("entities", JArr [JNull])] [JNull] [[("course_id", JStr "e0")]])).
    reflexivity.
  - apply (proj1 (proj2 (collection_keys_are_required [("label", JStr "Data Science")] [] [])));
      reflexivity.
  - apply (proj2 (proj2 (collection_keys_are_required
                           [("id", JStr "c1"); ("label", JStr "Data Science")] [] [])));
      reflexivity.
Defined.

(** The API answers 503: the fetch is the only call and the world is left as
    it was. *)
Example refused_fetch_touches_nothing :
  let r := run (services unavailable_response accept_all)
               (main (fun _ => EmptyString) default_config) stale_world in
  calls r = [(requests_post URL, ReturnedResponse unavailable_response)] /\
  final r = stale_world /\
  returned r = failure (ApiRequestFailed 503).
Proof. cbv zeta. repeat split. Qed.

(** * A missing required key, from the entity to the run *)

(** The rows the transform returns are the rows of the pairs of the
    document, in order. *)
Lemma transform_inr_pairs data rows :
  transform data = inr rows -> Forall2 row_of_pair rows (pairs data).
Proof.
  unfold transform, pairs, collections_of. intros H.
  apply bindR_inr in H as (collections & -> & H).
  apply bindR_inr in H as (cs & Eit & H).
  destruct (loop_collections_inv _ _ _ H) as (Hobj & rows' & -> & Hrows).
  rewrite (py_iter_objects _ _ Eit Hobj) in Hrows.
  simpl app. now destruct collections.
Qed.

Lemma Forall2_In_r {A B} (P : A -> B -> Prop) l l' y :
  Forall2 P l l' -> In y l' -> exists x, In x l /\ P x y.
Proof.
  induction 1 as [|x y' l l' Hxy _ IH]; simpl; [contradiction|].
  intros [<-|Hin]; [eauto|].
  destruct (IH Hin) as (x' & Hx' & HP). eauto.
Qed.

Lemma loop_collections_app_acc cs1 cs2 acc :
  loop_collections (cs1 ++ cs2) acc =
  let* acc' := loop_collections cs1 acc in loop_collections cs2 acc'.
Proof.
  revert acc. induction cs1 as [|c cs1 IH]; intros acc; simpl; [reflexivity|].
  destruct (subscript c "label") as [err|label]; [reflexivity|]. cbn [bindR].
  destruct (subscript c "id") as [err|cid]; [reflexivity|]. cbn [bindR].
  destruct (subscript c "entities") as [err|ents]; [reflexivity|]. cbn [bindR].
  destruct (py_iter ents) as [err|es]; [reflexivity|]. cbn [bindR].
  destruct (loop_entities label cid es acc) as [err|acc']; [reflexivity|].
  cbn [bindR]. apply IH.
Qed.

Lemma loop_entities_first_failure label cid before entity after err acc :
  Forall (fun e => exists row, make_row label cid e = inr row) before ->
  make_row label cid entity = inl err ->
  loop_entities label cid (before ++ entity :: after) acc = inl err.
Proof.
  intros Hbefore Herr. revert acc.
  induction Hbefore as [|e before [row Hrow] _ IH]; intros acc; simpl.
  - now rewrite Herr.
  - rewrite Hrow. cbn [bindR]. apply IH.
Qed.

(** The exception of the transform is the exception of the first entity on
    which the loop body raises, when the collections and the entities before
    it follow the data model. *)
Lemma transform_first_failure data before_cs dc after_cs label cid before_es entity
    after_es err :
  query_collections data = inr (JArr (before_cs ++ JObj dc :: after_cs)) ->
  forallb valid_collection before_cs = true ->
  dict_get dc "label" = Some label ->
  dict_get dc "id" = Some cid ->
  dict_get dc "entities" = Some (JArr (before_es ++ entity :: after_es)) ->
  forallb valid_entity before_es = true ->
  make_row label cid entity = inl err ->
  transform data = inl err.
Proof.
  intros Hq Hcs El Ei Ee Hes Herr. unfold transform. rewrite Hq. cbn [bindR py_iter].
  rewrite loop_collections_app_acc.
  destruct (loop_collections_valid before_cs Hcs []) as (rows & -> & _).
  cbn [bindR loop_collections subscript]. rewrite El, Ei, Ee. cbn [bindR py_iter].
  rewrite (loop_entities_first_failure label cid before_es entity after_es err);
    [reflexivity| |exact Herr].
  destruct (loop_entities_valid label cid before_es Hes []) as (rows' & _ & Hrows).
  clear -Hrows. induction Hrows as [|row e rows es Hrow _ IH]; constructor; eauto.
Qed.

(** A run whose fetch returned a document on which the transform raises:
    it answers with a failure, calls nothing but the fetch, the write and the
    upload of the raw file, and once that upload has returned the failure is
    the exception of the transform. *)
Lemma failing_transform_ends_run {W} (h : handler W) py cfg w resp data err :
  let r := run h (main py cfg) w in
  head (calls r) = Some (requests_post URL, ReturnedResponse resp) ->
  response_json resp = inr data ->
  transform data = inl err ->
  (exists e, returned r = failure e) /\
  (forall c o, In (c, o) (calls r) ->
     c = requests_post URL \/
     c = write_file "/tmp/coursera_response.json" (JsonDump data) \/
     c = upload_to_gcs (GCS_BUCKET_NAME cfg) "/tmp/coursera_response.json"
           "coursera_response.json") /\
  (In (upload_to_gcs (GCS_BUCKET_NAME cfg) "/tmp/coursera_response.json"
         "coursera_response.json", Returned) (calls r) ->
   returned r = failure err).
Proof.
  run_cases h; cbv zeta; intros Hhead Hj Ht;
    cbn [head] in Hhead; try discriminate Hhead; same_entry; subst;
    try discriminate; once same_answer; try congruence;
    (split; [eexists; reflexivity|]);
    (split; [intros c o Hin; pick_entry Hin; auto|]);
    intros Hin; find_entry Hin; unfold failure; congruence.
Qed.

(** C2: an entity that lacks one of [id], [name], [slug], [url], [imageUrl],
    [partnerIds] gives no row and ends the run with an error. The loop body
    raises on it, under any label and id, and so does the loop over any list
    of entities that holds it. The transform of any document that has the
    entity in one of its collections raises, and a run whose fetch returned
    that document answers with a failure (status 500) and calls nothing but
    the fetch and the write and the upload of the raw file: no CSV file, no
    call to BigQuery; once the raw upload has returned, the failure is the
    exception of the transform. The exception of the loop body is the
    [KeyError] of a key the entity does not have when its partners and
    partner ids that are there are lists of the data model, and it is the
    exception of the transform when the collections and the entities before
    the entity follow the data model. *)
Theorem missing_required_key_raises d key :
  In key required_keys ->
  dict_get d key = None ->
  (forall label cid,
     (exists err, make_row label cid (JObj d) = inl err) /\
     (forall es acc, In (JObj d) es ->
        exists err, loop_entities label cid es acc = inl err) /\
     (well_typed_partners d = true -> well_typed_partner_ids d = true ->
      exists k, dict_get d k = None /\
                make_row label cid (JObj d) = inl (KeyError (JStr k)))) /\
  (forall data c, In (c, JObj d) (pairs data) ->
     (exists err, transform data = inl err) /\
     (forall (W : Type) (h : handler W) py cfg w resp,
        let r := run h (main py cfg) w in
        head (calls r) = Some (requests_post URL, ReturnedResponse resp) ->
        response_json resp = inr data ->
        (exists err, returned r = failure err) /\
        (forall c' o, In (c', o) (calls r) ->
           c' = requests_post URL \/
           c' = write_file "/tmp/coursera_response.json" (JsonDump data) \/
           c' = upload_to_gcs (GCS_BUCKET_NAME cfg) "/tmp/coursera_response.json"
                  "coursera_response.json") /\
        (In (upload_to_gcs (GCS_BUCKET_NAME cfg) "/tmp/coursera_response.json"
               "coursera_response.json", Returned) (calls r) ->
         exists err, transform data = inl err /\ returned r = failure err))) /\
  (forall data before_cs dc after_cs label cid before_es after_es,
     query_collections data = inr (JArr (before_cs ++ JObj dc :: after_cs)) ->
     forallb valid_collection before_cs = true ->
     dict_get dc "label" = Some label ->
     dict_get dc "id" = Some cid ->
     dict_get dc "entities" = Some (JArr (before_es ++ JObj d :: after_es)) ->
     forallb valid_entity before_es = true ->
     well_typed_partners d = true -> well_typed_partner_ids d = true ->
     exists k, dict_get d k = None /\ transform data = inl (KeyError (JStr k))).
Proof.
  intros Hkey Hnone. split; [|split].
  - intros label cid. exact (missing_required_key_no_row label cid d key Hkey Hnone).
  - intros data c Hin.
    assert (exists err, transform data = inl err) as [err Herr].
    { destruct (transform data) as [err|rows] eqn:Ht; [eauto|]. exfalso.
      destruct (Forall2_In_r _ _ _ _ (transform_inr_pairs _ _ Ht) Hin)
        as (row & _ & label & cid & _ & _ & Hrow).
      destruct (missing_required_key_no_row label cid d key Hkey Hnone) as [[err' Herr'] _].
      simpl in Hrow. congruence. }
    split; [eauto|].
    intros W h py cfg w resp r Hhead Hj.
    destruct (failing_transform_ends_run h py cfg w resp data err Hhead Hj Herr)
      as (Hfail & Hcalls & Hup).
    split; [exact Hfail|]. split; [exact Hcalls|]. eauto.
  - intros data before_cs dc after_cs label cid before_es after_es Hq Hcs El Ei Ee Hes Hps Hids.
    destruct (missing_required_key_no_row label cid d key Hkey Hnone) as (_ & _ & Hk).
    destruct (Hk Hps Hids) as (k & Hknone & Hrow).
    exists k. split; [exact Hknone|].
    exact (transform_first_failure _ _ _ _ _ _ _ _ _ _ Hq Hcs El Ei Ee Hes Hrow).
Qed.

(** The entity without its [slug], second entity of the second collection
    of its document: the transform raises the [KeyError] of an absent key,
    and the run against the services of the model fails and does not call
    BigQuery. *)
Lemma missing_required_key_raises_witness :
  (exists k, dict_get no_slug_entity k = None /\
             transform no_slug_document = inl (KeyError (JStr k))) /\
  (exists err,
     returned (run (services no_slug_response accept_all)
                 (main (fun _ => EmptyString) default_config) stale_world) = failure err) /\
  (forall c o,
     In (c, o) (calls (run (services no_slug_response accept_all)
                         (main (fun _ => EmptyString) default_config) stale_world)) ->
     is_bigquery c = false).
Proof.
  destruct (missing_required_key_raises no_slug_entity "slug") as (_ & Hdoc & Hkey).
  - simpl. tauto.
  - reflexivity.
  - split.
    + apply (Hkey no_slug_document [sample_collection] no_slug_collection [] (JStr "Business")
               (JStr "c2") [JObj bare_entity] [JObj full_entity]);
        reflexivity.
    + destruct (Hdoc no_slug_document (JObj no_slug_collection)) as [_ Hrun].
      { simpl. tauto. }
      destruct (Hrun world (services no_slug_response accept_all) (fun _ => EmptyString)
                  default_config stale_world no_slug_response) as (Hfail & Hcalls & _).
      { reflexivity. }
      { reflexivity. }
      split; [exact Hfail|].
      intros c o Hin. destruct (Hcalls c o Hin) as [->|[->| ->]]; reflexivity.
Defined.

(** The same run, evaluated: the failure is the [KeyError] of [slug], the
    raw answer is saved, and the table still holds what it held. *)
Example missing_slug_ends_the_run :
  let r := run (services no_slug_response accept_all)
               (main (fun _ => EmptyString) default_config) stale_world in
  returned r = failure (KeyError (JStr "slug")) /\
  calls r =
    [ (requests_post URL, ReturnedResponse no_slug_response);
      (write_file "/tmp/coursera_response.json" (JsonDump no_slug_document), Returned);
      (upload_to_gcs "gcstestbuckethb" "/tmp/coursera_response.json"
         "coursera_response.json", Returned) ] /\
  courses_table (final r) = courses_table stale_world.
Proof. cbv zeta. repeat split. Qed.
